(** * Geo query filter of dgraph ([types/geofilter.go])

    A shallow embedding of the token generator ([GetGeoTokens],
    [queryTokensGeo], [nearQueryKeys]), of the exact-match evaluator
    ([MatchesFilter], [isWithin], [contains], [intersects]) and of the
    candidate scanner ([FilterGeoUids]), followed by the properties the
    specification states about them.

    The spherical-geometry primitives (package [s2]), the geometry values
    (package [geom]) and the helpers of package [types] that live in other
    files are collaborators: they appear as the fields of two interfaces,
    [GeoTypes] and [GeoLib], and every definition and theorem is generic in
    them.  A small planar instance ([Grid]) gives concrete inputs. *)

From Stdlib Require Import List String Ascii ZArith Bool Lia.
From Stdlib.Strings Require Import Byte.
From Stdlib Require Import SpecFloat DecimalString.
From Stdlib Require Decimal.
Import ListNotations.

Set Implicit Arguments.
Open Scope string_scope.
Open Scope list_scope.

(** ** Go conventions *)

(** [float64]: IEEE 754 values, compared with the comparisons of the
    standard ([NaN] is unordered, both zeros are equal). *)
Definition float64 : Type := spec_float.
Definition float_zero : float64 := S754_zero false.
(** [a < b] and [a <= b] on [float64]. *)
Definition float_lt (a b : float64) : bool := SFltb a b.
Definition float_le (a b : float64) : bool := SFleb a b.

(** [x.AssertTruef] ends the process when its condition is false; a function
    that asserts either returns or dies with the assertion's message. *)
Inductive run (A : Type) : Type :=
| Return (a : A)
| Fatal (msg : string).
Arguments Fatal {A} msg.

Definition bind {A B : Type} (m : run A) (k : A -> run B) : run B :=
  match m with
  | Return a => k a
  | Fatal msg => Fatal msg
  end.

Definition AssertTruef (cond : bool) (msg : string) : run unit :=
  if cond then Return tt else Fatal msg.

Notation "x <- m ;; k" := (bind m (fun x => k))
  (at level 61, m at next level, right associativity).
Notation "'assert!' c 'or' msg ;; k" := (bind (AssertTruef c msg) (fun _ => k))
  (at level 61, c at next level, msg at next level, right associativity).

(** [len(s) > 0] and [p != nil]. *)
Definition nonempty {A : Type} (s : list A) : bool := Nat.ltb 0 (List.length s).
Definition notnil {A : Type} (p : option A) : bool :=
  match p with Some _ => true | None => false end.

(** ** Collaborator types *)

Class GeoTypes : Type := {
  s2Point : Type;       (* s2.Point *)
  s2Loop : Type;        (* s2.Loop *)
  s2Cap : Type;         (* s2.Cap *)
  s1Angle : Type;       (* s1.Angle *)
  s2CellUnion : Type;   (* s2.CellUnion *)
  geomPoint : Type;     (* geom.Point *)
  geomPolygon : Type;   (* geom.Polygon *)
  geomOther : Type;     (* every other implementation of geom.T *)
  libError : Type       (* error values made by a collaborator *)
}.

(** [geom.T], by the cases of the type switches.  A multi-polygon is read
    through [NumPolygons] and [Polygon(i)] only: the sequence of its
    polygons. *)
Inductive geomT `{GeoTypes} : Type :=
| TPoint (v : geomPoint)
| TPolygon (v : geomPolygon)
| TMultiPolygon (v : list geomPolygon)
| TOther (v : geomOther).

Inductive fmtArg `{GeoTypes} : Type :=
| ArgInt (n : nat)
| ArgType (v : geomOther).

(** The [error] values of the file: [x.Errorf], [x.Wrapf], or an error handed
    over unchanged from a collaborator. *)
Inductive error `{GeoTypes} : Type :=
| Errorf (format : string) (args : list fmtArg)
| Wrapf (cause : libError) (format : string)
| LibErr (e : libError).

(** A Go [(T, error)] result. *)
Inductive result `{GeoTypes} (A : Type) : Type :=
| Ok (a : A)
| Err (e : error).
Arguments Ok {_ A} a.
Arguments Err {_ A} e.

(** ** QueryType *)

(** [type QueryType byte], with the constants numbered by [iota]. *)
Definition QueryType : Type := byte.
Definition QueryTypeWithin : QueryType := x00.
Definition QueryTypeContains : QueryType := x01.
Definition QueryTypeIntersects : QueryType := x02.
Definition QueryTypeNear : QueryType := x03.

(** [GeoQueryData]: a nil pointer is [None], a slice is a list. *)
Record GeoQueryData `{GeoTypes} : Type := mkGeoQueryData {
  pt : option s2Point;
  loops : list s2Loop;
  cap : option s2Cap;
  qtype : QueryType
}.
Arguments mkGeoQueryData {_} pt loops cap qtype.

(** [protos.TaskValue], the two fields the scanner reads. *)
Record TaskValue : Type := mkTaskValue {
  Val : list byte;
  ValType : Z
}.

(** ** Collaborator operations *)

Class GeoLib `{GeoTypes} : Type := {
  (* package types, other files *)
  pointFromPoint : geomPoint -> s2Point;
  loopFromPolygon : geomPolygon -> result s2Loop;
  Contains : s2Loop -> s2Loop -> bool;
  Intersects : s2Loop -> s2Loop -> bool;
  indexCells : geomT -> result (s2CellUnion * s2CellUnion); (* parents, cover *)
  indexCellsForCap : s2Cap -> s2CellUnion;
  createTokens : s2CellUnion -> string -> list string;
  parentPrefix : string;
  coverPrefix : string;
  EarthAngle : float64 -> s1Angle;
  convertToGeom : string -> result geomT;
  GeoID : Z;
  (* [Convert] of a [BinaryID] value holding the bytes, to [GeoID] *)
  Convert : list byte -> result geomT;
  (* package s2 *)
  Loop_ContainsPoint : s2Loop -> s2Point -> bool;
  Loop_CapBound : s2Loop -> s2Cap;
  Point_ApproxEqual : s2Point -> s2Point -> bool;
  Cap_ContainsPoint : s2Cap -> s2Point -> bool;
  Cap_Contains : s2Cap -> s2Cap -> bool;
  CapFromCenterAngle : s2Point -> s1Angle -> s2Cap;
  (* strings, strconv *)
  ToLower : string -> string;
  ParseFloat : string -> float64 + libError
}.

Section Model.
Context {GT : GeoTypes} {GL : GeoLib}.

(** Modelled from the spec: [parentCoverTokens], which [queryTokensGeo] calls
    for an intersects query and whose body is in another file.  The keys of
    an intersects query are the "union of the within-keys and contains-keys
    derivations": the parent tag over the cover cells, then the cover tag
    over the ancestor cells. *)
Definition parentCoverTokens (parents cover : s2CellUnion) : list string :=
  createTokens cover parentPrefix ++ createTokens parents coverPrefix.

(** ** Token generation *)

(** The loop of the [*geom.MultiPolygon] case of [queryTokensGeo]:
    [loops = append(loops, l)] for each polygon, the first failing conversion
    returned. *)
Fixpoint appendLoops (ps : list geomPolygon) (acc : list s2Loop)
  : result (list s2Loop) :=
  match ps with
  | [] => Ok acc
  | p :: rest =>
      match loopFromPolygon p with
      | Err err => Err err
      | Ok l => appendLoops rest (acc ++ [l])
      end
  end.

Definition nearQueryKeys (p : s2Point) (d : float64)
  : result (list string * GeoQueryData) :=
  if float_le d float_zero then
    Err (Errorf "Invalid max distance specified for a near query" [])
  else
    let a := EarthAngle d in
    let c := CapFromCenterAngle p a in
    let cu := indexCellsForCap c in
    Ok (createTokens cu parentPrefix,
        mkGeoQueryData None [] (Some c) QueryTypeNear).

(** The first type switch of [queryTokensGeo]: the loops and the point. *)
Definition queryShape (g : geomT) : result (list s2Loop * option s2Point) :=
  match g with
  | TPoint v => Ok ([], Some (pointFromPoint v))
  | TPolygon v =>
      match loopFromPolygon v with
      | Err err => Err err
      | Ok l => Ok ([] ++ [l], None)
      end
  | TMultiPolygon v =>
      match appendLoops v [] with
      | Err err => Err err
      | Ok ls => Ok (ls, None)
      end
  | TOther v => Err (Errorf "Cannot query using a geometry of type %T" [ArgType v])
  end.

Definition queryTokensGeo (qt : QueryType) (g : geomT) (maxDistance : float64)
  : run (result (list string * GeoQueryData)) :=
  match queryShape g with
  | Err err => Return (Err err)
  | Ok (ls, p) =>
      assert! (nonempty ls || notnil p) or "We should have a point or a loop." ;;
      match indexCells g with
      | Err err => Return (Err err)
      | Ok (parents, cover) =>
          if Byte.eqb qt QueryTypeWithin then
            if Nat.eqb (List.length ls) 0 then
              Return (Err (Errorf "Require a polygon for within query" []))
            else
              Return (Ok (createTokens cover parentPrefix,
                          mkGeoQueryData None ls None qt))
          else if Byte.eqb qt QueryTypeContains then
            Return (Ok (createTokens parents coverPrefix,
                        mkGeoQueryData p ls None qt))
          else if Byte.eqb qt QueryTypeNear then
            if nonempty ls then
              Return (Err (Errorf "Cannot use a polygon in a near query" []))
            else
              match p with
              | Some p' => Return (nearQueryKeys p' maxDistance)
              | None => Fatal "invalid memory address or nil pointer dereference"
              end
          else if Byte.eqb qt QueryTypeIntersects then
            if Nat.eqb (List.length ls) 0 then
              Return (Err (Errorf "Require a polygon for intersects query" []))
            else
              Return (Ok (parentCoverTokens parents cover,
                          mkGeoQueryData None ls None qt))
          else
            Return (Err (Errorf "Unknown query type" []))
      end
  end.

(** [IsGeoFunc]: a switch with the four names in one case. *)
Definition IsGeoFunc (str : string) : bool :=
  if String.eqb str "near" || String.eqb str "contains"
     || String.eqb str "within" || String.eqb str "intersects"
  then true
  else false.

(** [funcArgs[i]]; every use below is behind a length test. *)
Definition arg (funcArgs : list string) (i : nat) : string :=
  nth i funcArgs EmptyString.

(** The three cases of [GetGeoTokens] that take no distance. *)
Definition geoTokensNoDistance (qt : QueryType) (format : string)
    (funcArgs : list string) : run (result (list string * GeoQueryData)) :=
  if negb (Nat.eqb (List.length funcArgs) 3) then
    Return (Err (Errorf format [ArgInt (List.length funcArgs)]))
  else
    match convertToGeom (arg funcArgs 2) with
    | Err err => Return (Err err)
    | Ok g => queryTokensGeo qt g float_zero
    end.

Definition GetGeoTokens (funcArgs : list string)
  : run (result (list string * GeoQueryData)) :=
  assert! (Nat.ltb 1 (List.length funcArgs)) or "Invalid function" ;;
  let funcName := ToLower (arg funcArgs 0) in
  if String.eqb funcName "near" then
    if negb (Nat.eqb (List.length funcArgs) 4) then
      Return (Err (Errorf "near function requires 2 arguments, but got %d"
                           [ArgInt (List.length funcArgs)]))
    else
      match ParseFloat (arg funcArgs 3) with
      | inr err =>
          Return (Err (Wrapf err "Error while converting distance to float"))
      | inl maxDist =>
          if float_lt maxDist float_zero then
            Return (Err (Errorf "Distance cannot be negative" []))
          else
            match convertToGeom (arg funcArgs 2) with
            | Err err => Return (Err err)
            | Ok g => queryTokensGeo QueryTypeNear g maxDist
            end
      end
  else if String.eqb funcName "within" then
    geoTokensNoDistance QueryTypeWithin
      "within function requires 1 arguments, but got %d" funcArgs
  else if String.eqb funcName "contains" then
    geoTokensNoDistance QueryTypeContains
      "contains function requires 1 arguments, but got %d" funcArgs
  else if String.eqb funcName "intersects" then
    geoTokensNoDistance QueryTypeIntersects
      "intersects function requires 1 arguments, but got %d" funcArgs
  else
    Return (Err (Errorf "Invalid geo function" [])).

(** ** Exact-match evaluator *)

Definition withinCapPolygon (g1 : s2Loop) (g2 : s2Cap) : bool :=
  Cap_Contains g2 (Loop_CapBound g1).

Fixpoint loopWithinMultiloops (l : s2Loop) (ls : list s2Loop) : bool :=
  match ls with
  | [] => false
  | s2loop :: rest =>
      if Contains s2loop l then true else loopWithinMultiloops l rest
  end.

(** [isWithin], multi-polygon case, the loop over the polygons when the
    filter has loops. *)
Fixpoint withinLoopsEach (ps : list geomPolygon) (ls : list s2Loop) : bool :=
  match ps with
  | [] => true
  | p :: rest =>
      match loopFromPolygon p with
      | Err _ => false
      | Ok s2loop =>
          if negb (loopWithinMultiloops s2loop ls) then false
          else withinLoopsEach rest ls
      end
  end.

(** [isWithin], multi-polygon case, the loop over the polygons when the
    filter has a cap. *)
Fixpoint withinCapEach (ps : list geomPolygon) (c : s2Cap) : bool :=
  match ps with
  | [] => true
  | p :: rest =>
      match loopFromPolygon p with
      | Err _ => false
      | Ok s2loop =>
          if negb (withinCapPolygon s2loop c) then false
          else withinCapEach rest c
      end
  end.

(** A [for _, l := range ls] that returns true at the first [l] passing the
    test and false after the last one is [existsb]; one that returns false at
    the first [l] failing the test and true after the last one is
    [forallb]. *)
Definition isWithin (q : GeoQueryData) (g : geomT) : run bool :=
  assert! (notnil (pt q) || nonempty (loops q) || notnil (cap q))
    or "At least a point, loop or cap should be defined." ;;
  match g with
  | TPoint geometry =>
      let s2pt := pointFromPoint geometry in
      match pt q with
      | Some qpt => Return (Point_ApproxEqual qpt s2pt)
      | None =>
          if nonempty (loops q) then
            Return (existsb (fun l => Loop_ContainsPoint l s2pt) (loops q))
          else
            match cap q with
            | Some c => Return (Cap_ContainsPoint c s2pt)
            | None => Fatal "invalid memory address or nil pointer dereference"
            end
      end
  | TPolygon geometry =>
      match loopFromPolygon geometry with
      | Err _ => Return false
      | Ok s2loop =>
          if nonempty (loops q) then
            Return (existsb (fun l => Contains l s2loop) (loops q))
          else
            match cap q with
            | Some c => Return (withinCapPolygon s2loop c)
            | None => Return false
            end
      end
  | TMultiPolygon geometry =>
      if nonempty (loops q) then
        Return (withinLoopsEach geometry (loops q))
      else
        match cap q with
        | Some c => Return (withinCapEach geometry c)
        | None => Return false
        end
  | TOther _ => Return false
  end.

Fixpoint multiPolygonContainsLoop (g : list geomPolygon) (l : s2Loop) : bool :=
  match g with
  | [] => false
  | p :: rest =>
      match loopFromPolygon p with
      | Err _ => false
      | Ok s2loop =>
          if Contains s2loop l then true else multiPolygonContainsLoop rest l
      end
  end.

(** [contains], multi-polygon case, the loop under [q.pt != nil]: it returns
    false at a polygon that does not convert, true at a polygon holding the
    point, and otherwise ends without returning ([None]). *)
Fixpoint containsPointEach (ps : list geomPolygon) (p : s2Point) : option bool :=
  match ps with
  | [] => None
  | poly :: rest =>
      match loopFromPolygon poly with
      | Err _ => Some false
      | Ok s2loop =>
          if Loop_ContainsPoint s2loop p then Some true
          else containsPointEach rest p
      end
  end.

Definition contains (q : GeoQueryData) (g : geomT) : run bool :=
  assert! (notnil (pt q) || nonempty (loops q))
    or "At least a point or loop should be defined." ;;
  match g with
  | TPolygon v =>
      match loopFromPolygon v with
      | Err _ => Return false
      | Ok s2loop =>
          match pt q with
          | Some qpt => Return (Loop_ContainsPoint s2loop qpt)
          | None => Return (forallb (fun l => Contains s2loop l) (loops q))
          end
      end
  | TMultiPolygon v =>
      match match pt q with
            | Some qpt => containsPointEach v qpt
            | None => None
            end with
      | Some b => Return b
      | None =>
          if nonempty (loops q) then
            Return (forallb (fun l => multiPolygonContainsLoop v l) (loops q))
          else Return false
      end
  | _ => Return false
  end.

(** [intersects], multi-polygon case: the loop over the polygons. *)
Fixpoint intersectsEach (ps : list geomPolygon) (ls : list s2Loop) : bool :=
  match ps with
  | [] => false
  | p :: rest =>
      match loopFromPolygon p with
      | Err _ => false
      | Ok l =>
          if existsb (fun loop => Intersects l loop) ls then true
          else intersectsEach rest ls
      end
  end.

Definition intersects (q : GeoQueryData) (g : geomT) : run bool :=
  assert! (nonempty (loops q)) or "Loop should be defined for intersects." ;;
  match g with
  | TPoint v =>
      let p := pointFromPoint v in
      Return (existsb (fun l => Loop_ContainsPoint l p) (loops q))
  | TPolygon v =>
      match loopFromPolygon v with
      | Err _ => Return false
      | Ok l => Return (existsb (fun loop => Intersects l loop) (loops q))
      end
  | TMultiPolygon v => Return (intersectsEach v (loops q))
  | TOther _ => Return false
  end.

Definition MatchesFilter (q : GeoQueryData) (g : geomT) : run bool :=
  if Byte.eqb (qtype q) QueryTypeWithin then isWithin q g
  else if Byte.eqb (qtype q) QueryTypeContains then contains q g
  else if Byte.eqb (qtype q) QueryTypeIntersects then intersects q g
  else if Byte.eqb (qtype q) QueryTypeNear then
    match cap q with
    | None => Return false
    | Some _ => isWithin q g
    end
  else Return false.

(** ** Candidate scanner *)

(** The body of the loop of [FilterGeoUids] from index [i] on: [values] is
    what is left of the values, [uids] the whole list, [rv] the identifiers
    kept so far.  [bytes.Equal(valBytes, nil)] holds of the empty slice. *)
Fixpoint filterFrom (i : nat) (uids : list N) (values : list TaskValue)
    (q : GeoQueryData) (rv : list N) : run (list N) :=
  match values with
  | [] => Return rv
  | v :: rest =>
      if Nat.eqb (List.length (Val v)) 0 then filterFrom (S i) uids rest q rv
      else if negb (Z.eqb (ValType v) GeoID) then filterFrom (S i) uids rest q rv
      else
        match Convert (Val v) with
        | Err _ => filterFrom (S i) uids rest q rv
        | Ok g =>
            matched <- MatchesFilter q g ;;
            if negb matched then filterFrom (S i) uids rest q rv
            else
              match nth_error uids i with
              | Some u => filterFrom (S i) uids rest q (rv ++ [u])
              | None => Fatal "index out of range"
              end
        end
  end.

Definition FilterGeoUids (uids : list N) (values : list TaskValue)
    (q : GeoQueryData) : run (list N) :=
  assert! (Nat.eqb (List.length values) (List.length uids)) or "lengths not matching" ;;
  filterFrom 0 uids values q [].

End Model.

(** ** Vocabulary of the properties *)

Section Vocabulary.
Context {GT : GeoTypes} {GL : GeoLib}.

(** The ring converts to a loop. *)
Definition converts (r : geomPolygon) : Prop :=
  exists l, loopFromPolygon r = Ok l.

(** The ring converts to a loop that passes the test. *)
Definition ringPasses (test : s2Loop -> bool) (r : geomPolygon) : Prop :=
  exists l, loopFromPolygon r = Ok l /\ test l = true.

(** Some ring passes the test and every ring before it converts. *)
Definition passesBeforeFailure (test : s2Loop -> bool) (ps : list geomPolygon)
  : Prop :=
  exists pre r post,
    ps = pre ++ r :: post /\ Forall converts pre /\ ringPasses test r.

(** The shape shared by the loops that stop with true at the first ring
    passing a test and with false at the first ring that does not convert. *)
Fixpoint firstOutcome (test : s2Loop -> bool) (ps : list geomPolygon)
  : option bool :=
  match ps with
  | [] => None
  | p :: rest =>
      match loopFromPolygon p with
      | Err _ => Some false
      | Ok l => if test l then Some true else firstOutcome test rest
      end
  end.

(** The shape shared by the loops that stop with false at the first ring
    that does not convert or fails a test. *)
Fixpoint everyOutcome (test : s2Loop -> bool) (ps : list geomPolygon) : bool :=
  match ps with
  | [] => true
  | p :: rest =>
      match loopFromPolygon p with
      | Err _ => false
      | Ok l => if negb (test l) then false else everyOutcome test rest
      end
  end.

(** The ring converts to a loop that some loop of [ls] contains. *)
Definition ringInSomeLoop (ls : list s2Loop) (r : geomPolygon) : Prop :=
  exists l f, loopFromPolygon r = Ok l /\ In f ls /\ Contains f l = true.

(** The ring converts to a loop that intersects some loop of [ls]. *)
Definition ringMeetsSomeLoop (ls : list s2Loop) (r : geomPolygon) : Prop :=
  exists l f, loopFromPolygon r = Ok l /\ In f ls /\ Intersects l f = true.

(** The filters with exactly one of point, loop set and cap, as the kind
    requires. *)
Inductive QueryFilterOk : GeoQueryData -> Prop :=
| NearCap c :
    QueryFilterOk (mkGeoQueryData None [] (Some c) QueryTypeNear)
| WithinLoops l ls :
    QueryFilterOk (mkGeoQueryData None (l :: ls) None QueryTypeWithin)
| IntersectsLoops l ls :
    QueryFilterOk (mkGeoQueryData None (l :: ls) None QueryTypeIntersects)
| ContainsPoint p :
    QueryFilterOk (mkGeoQueryData (Some p) [] None QueryTypeContains)
| ContainsLoops l ls :
    QueryFilterOk (mkGeoQueryData None (l :: ls) None QueryTypeContains).

(** The condition asserted on the path [MatchesFilter] takes for the kind of
    the filter. *)
Definition assertionsHold (q : GeoQueryData) : bool :=
  if Byte.eqb (qtype q) QueryTypeWithin then
    notnil (pt q) || nonempty (loops q) || notnil (cap q)
  else if Byte.eqb (qtype q) QueryTypeContains then
    notnil (pt q) || nonempty (loops q)
  else if Byte.eqb (qtype q) QueryTypeIntersects then
    nonempty (loops q)
  else true.

(** The filter is one that token generation returns. *)
Definition generated (q : GeoQueryData) : Prop :=
  (exists qt g d keys, queryTokensGeo qt g d = Return (Ok (keys, q)))
  \/ (exists p d keys, nearQueryKeys p d = Ok (keys, q))
  \/ (exists funcArgs keys, GetGeoTokens funcArgs = Return (Ok (keys, q))).

(** The candidate is kept: its value is not empty, its type is the geometry
    type, its bytes decode and the evaluator answers true. *)
Definition keeps (q : GeoQueryData) (v : TaskValue) : bool :=
  negb (Nat.eqb (List.length (Val v)) 0)
  && Z.eqb (ValType v) GeoID
  && match Convert (Val v) with
     | Ok g =>
         match MatchesFilter q g with
         | Return b => b
         | Fatal _ => false
         end
     | Err _ => false
     end.

Definition kept (q : GeoQueryData) (uids : list N) (values : list TaskValue)
  : list N :=
  map fst (filter (fun uv => keeps q (snd uv)) (combine uids values)).

(** The call returns an error, and neither keys nor a filter: the error of
    the cell derivation when that fails, [e0] otherwise. *)
Definition rejectedWith (r : run (result (list string * GeoQueryData)))
    (g : geomT) (e0 : error) : Prop :=
  exists e,
    r = Return (Err e)
    /\ match indexCells g with
       | Err e' => e = e'
       | Ok _ => e = e0
       end.

(** The scanner hands the value to the evaluator: it is not empty, its type
    is the geometry type and its bytes decode. *)
Definition evaluated (v : TaskValue) : bool :=
  negb (Nat.eqb (List.length (Val v)) 0)
  && Z.eqb (ValType v) GeoID
  && match Convert (Val v) with
     | Ok _ => true
     | Err _ => false
     end.

(** No value gets as far as the evaluator. *)
Definition noneEvaluated (values : list TaskValue) : bool :=
  forallb (fun v => negb (evaluated v)) values.

(** Every value that decodes, decodes to a point. *)
Definition storesPoints (values : list TaskValue) : Prop :=
  forall v g, In v values -> Convert (Val v) = Ok g -> exists p, g = TPoint p.

(** The kind is one of the four constants. *)
Definition knownKind (qt : QueryType) : bool :=
  Byte.eqb qt QueryTypeWithin || Byte.eqb qt QueryTypeContains
  || Byte.eqb qt QueryTypeIntersects || Byte.eqb qt QueryTypeNear.

End Vocabulary.

(** [s] is [l] with some elements left out, the order kept. *)
Inductive Subseq {A : Type} : list A -> list A -> Prop :=
| Subseq_nil : Subseq [] []
| Subseq_skip x s l : Subseq s l -> Subseq s (x :: l)
| Subseq_take x s l : Subseq s l -> Subseq (x :: s) (x :: l).

(** ** A planar instance of the collaborators

    Points of the integer grid, axis-parallel boxes for loops, squares
    (centre and half-width) for caps; a ring converts to its bounding box and
    fails to convert when it has fewer than four points.  It gives the
    concrete inputs at which the theorems below are evaluated. *)
Module Grid.

Definition box : Type := (Z * Z) * (Z * Z).   (* lower-left, upper-right *)

Definition inBox (b : box) (p : Z * Z) : bool :=
  let '((x0, y0), (x1, y1)) := b in
  let '(x, y) := p in
  (x0 <=? x)%Z && (x <=? x1)%Z && (y0 <=? y)%Z && (y <=? y1)%Z.

Definition boxInBox (outer inner : box) : bool :=
  inBox outer (fst inner) && inBox outer (snd inner).

Definition boxesMeet (a b : box) : bool :=
  let '((ax0, ay0), (ax1, ay1)) := a in
  let '((bx0, by0), (bx1, by1)) := b in
  (ax0 <=? bx1)%Z && (bx0 <=? ax1)%Z && (ay0 <=? by1)%Z && (by0 <=? ay1)%Z.

Definition bounds (ring : list (Z * Z)) : box :=
  match ring with
  | [] => ((0, 0), (0, 0))%Z
  | p :: rest =>
      fold_left (fun b q =>
                   ((Z.min (fst (fst b)) (fst q), Z.min (snd (fst b)) (snd q)),
                    (Z.max (fst (snd b)) (fst q), Z.max (snd (snd b)) (snd q))))
                rest (p, p)
  end.

#[export] Instance types : GeoTypes := {|
  s2Point := Z * Z;
  s2Loop := box;
  s2Cap := (Z * Z) * Z;
  s1Angle := Z;
  s2CellUnion := list Z;
  geomPoint := Z * Z;
  geomPolygon := list (Z * Z);
  geomOther := unit;
  libError := string
|}.

Definition ringToBox (ring : list (Z * Z)) : result box :=
  if Nat.ltb (List.length ring) 4 then
    Err (Errorf "Can't convert ring with less than 4 pts" [])
  else Ok (bounds ring).

Definition capOfBox (b : box) : (Z * Z) * Z :=
  let '((x0, y0), (x1, y1)) := b in
  (((x0 + x1) / 2, (y0 + y1) / 2), Z.max (x1 - x0) (y1 - y0) / 2 + 1)%Z.

Definition inCap (c : (Z * Z) * Z) (p : Z * Z) : bool :=
  let '((cx, cy), r) := c in
  (Z.abs (fst p - cx) <=? r)%Z && (Z.abs (snd p - cy) <=? r)%Z.

Definition capInCap (outer inner : (Z * Z) * Z) : bool :=
  let '((cx, cy), r) := inner in
  inCap outer (cx - r, cy - r)%Z && inCap outer (cx + r, cy + r)%Z.

(** Cells: the 16-by-16 tile of a point, and the 64-by-64 tile above it. *)
Definition cellOf (p : Z * Z) : Z := (1000 + (fst p / 16) * 100 + snd p / 16)%Z.
Definition parentOf (p : Z * Z) : Z := ((fst p / 64) * 10 + snd p / 64)%Z.

Definition cells (g : geomT) : result (list Z * list Z) :=
  match g with
  | TPoint p => Ok ([parentOf p; cellOf p], [cellOf p])
  | TPolygon ring =>
      match ringToBox ring with
      | Err err => Err err
      | Ok _ => Ok (map parentOf ring ++ map cellOf ring, map cellOf ring)
      end
  | TMultiPolygon rings =>
      Ok (map parentOf (List.concat rings) ++ map cellOf (List.concat rings),
          map cellOf (List.concat rings))
  | TOther _ => Err (Errorf "Cannot index geometry" [])
  end.

Definition digit (c : ascii) : option N :=
  let n := N_of_ascii c in
  if (48 <=? n)%N && (n <=? 57)%N then Some (n - 48)%N else None.

Fixpoint digits (s : string) (acc : N) : option N :=
  match s with
  | EmptyString => Some acc
  | String c rest =>
      match digit c with
      | Some d => digits rest (10 * acc + d)%N
      | None => None
      end
  end.

Definition floatOfN (sign : bool) (n : N) : float64 :=
  match n with
  | N0 => S754_zero sign
  | Npos m => S754_finite sign m 0
  end.

(** Decimal integers with an optional sign. *)
Definition parseFloat (s : string) : float64 + string :=
  match s with
  | EmptyString => inr "invalid syntax"
  | String "-" (String c rest) =>
      match digits (String c rest) 0 with
      | Some n => inl (floatOfN true n)
      | None => inr "invalid syntax"
      end
  | _ =>
      match digits s 0 with
      | Some n => inl (floatOfN false n)
      | None => inr "invalid syntax"
      end
  end.

Definition metres (d : float64) : Z :=
  match d with
  | S754_finite false m e => (Z.pos m * 2 ^ e)%Z
  | _ => 0%Z
  end.

Definition lower (c : ascii) : ascii :=
  let n := N_of_ascii c in
  if (65 <=? n)%N && (n <=? 90)%N then ascii_of_N (n + 32) else c.

Fixpoint toLower (s : string) : string :=
  match s with
  | EmptyString => EmptyString
  | String c rest => String (lower c) (toLower rest)
  end.

(** Stored values: a tag byte, then the coordinates, one byte each. *)
Fixpoint coords (bs : list byte) : option (list (Z * Z)) :=
  match bs with
  | [] => Some []
  | x :: y :: rest =>
      match coords rest with
      | Some ps => Some ((Z.of_N (Byte.to_N x), Z.of_N (Byte.to_N y)) :: ps)
      | None => None
      end
  | _ => None
  end.

Definition decode (bs : list byte) : result geomT :=
  match bs with
  | x01 :: rest =>
      match coords rest with
      | Some [p] => Ok (TPoint p)
      | _ => Err (LibErr "bad point")
      end
  | x03 :: rest =>
      match coords rest with
      | Some ring => Ok (TPolygon ring)
      | None => Err (LibErr "bad polygon")
      end
  | _ => Err (LibErr "unknown geometry")
  end.

(** Geometry literals: [x,y] with one digit per coordinate, or "line". *)
Definition literal (s : string) : result geomT :=
  match s with
  | String "[" (String x (String "," (String y (String "]" EmptyString)))) =>
      match digit x, digit y with
      | Some a, Some b => Ok (TPoint (Z.of_N a, Z.of_N b))
      | _, _ => Err (LibErr "bad literal")
      end
  | _ => Err (LibErr "bad literal")
  end.

Definition tokens (cu : list Z) (prefix : string) : list string :=
  map (fun c => prefix ++ NilZero.string_of_int (Z.to_int c))%string cu.

#[export] Instance lib : GeoLib := {|
  pointFromPoint := fun p => p;
  loopFromPolygon := ringToBox;
  Contains := boxInBox;
  Intersects := boxesMeet;
  indexCells := cells;
  indexCellsForCap := fun c => [cellOf (fst c)];
  createTokens := tokens;
  parentPrefix := "p/";
  coverPrefix := "c/";
  EarthAngle := metres;
  convertToGeom := literal;
  GeoID := 5%Z;
  Convert := decode;
  Loop_ContainsPoint := inBox;
  Loop_CapBound := capOfBox;
  Point_ApproxEqual := fun a b => (fst a =? fst b)%Z && (snd a =? snd b)%Z;
  Cap_ContainsPoint := inCap;
  Cap_Contains := capInCap;
  CapFromCenterAngle := fun p a => (p, a);
  ToLower := toLower;
  ParseFloat := parseFloat
|}.

(** The fixtures of the specification: the square [P] with corners [(0,0)]
    and [(10,10)], two disjoint squares [A] and [B], and rings. *)
Definition P : box := ((0, 0), (10, 10))%Z.
Definition A : box := ((0, 0), (10, 10))%Z.
Definition B : box := ((20, 20), (30, 30))%Z.
Definition ringInA : list (Z * Z) := [(2, 2); (2, 4); (4, 4); (4, 2)]%Z.
Definition ringInB : list (Z * Z) := [(22, 22); (22, 24); (24, 24); (24, 22)]%Z.
Definition ringOutside : list (Z * Z) := [(50, 50); (50, 54); (54, 54); (54, 50)]%Z.
Definition ringAroundA : list (Z * Z) := [(-1, -1); (-1, 11); (11, 11); (11, -1)]%Z.
Definition ringBroken : list (Z * Z) := [(2, 2); (2, 4); (4, 4)]%Z.
Definition ringP : list (Z * Z) := [(0, 0); (0, 10); (10, 10); (10, 0)]%Z.

(** Filters. *)
Definition withinP : GeoQueryData := mkGeoQueryData None [P] None QueryTypeWithin.
Definition withinAB : GeoQueryData :=
  mkGeoQueryData None [A; B] None QueryTypeWithin.
Definition containsCentre : GeoQueryData :=
  mkGeoQueryData (Some (5, 5)%Z) [] None QueryTypeContains.
Definition intersectsA : GeoQueryData :=
  mkGeoQueryData None [A] None QueryTypeIntersects.
Definition nearCentre : GeoQueryData :=
  mkGeoQueryData None [] (Some ((5, 5), 1000)%Z) QueryTypeNear.

(** The zero value of [GeoQueryData], a near filter with loops and no cap,
    and a contains filter with both a point and loops; token generation
    returns none of them. *)
Definition zeroValue : GeoQueryData :=
  mkGeoQueryData None [] None QueryTypeWithin.
Definition nearWithLoops : GeoQueryData :=
  mkGeoQueryData None [A; B] None QueryTypeNear.
Definition containsBoth : GeoQueryData :=
  mkGeoQueryData (Some (50, 50)%Z) [A] None QueryTypeContains.

(** Candidates: a point, and a geometry of another kind. *)
Definition pointNearby : geomT := @TPoint types (5, 6)%Z.
Definition lineString : geomT := @TOther types tt.
Definition centre : geomT := @TPoint types (5, 5)%Z.

(** Stored values: the point [(5,5)], an empty value, the point [(50,50)]. *)
Definition stored : list TaskValue :=
  [mkTaskValue [x01; x05; x05] 5; mkTaskValue [] 5; mkTaskValue [x01; x32; x32] 5].

(** The keys of the three queries on the ring [ringInA]. *)
Definition keysWithin : list string := ["p/1000"; "p/1000"; "p/1000"; "p/1000"].
Definition keysContains : list string :=
  ["c/0"; "c/0"; "c/0"; "c/0"; "c/1000"; "c/1000"; "c/1000"; "c/1000"].

(** A filter of a kind that is none of the four constants, and the number
    that is not a number. *)
Definition unknownKind : GeoQueryData := mkGeoQueryData None [A] None x07.
Definition notANumber : float64 := S754_nan.
Definition withinABsmall : GeoQueryData :=
  mkGeoQueryData None [bounds ringInA; bounds ringInB] None QueryTypeWithin.
Definition thousand : float64 := S754_finite false 1000 0.
Definition minusFive : float64 := S754_finite true 5 0.

End Grid.

(** * Properties *)

Unset Implicit Arguments.

(** ** Scans over the rings of a multi-polygon *)

Section Rings.
Context {GT : GeoTypes} {GL : GeoLib}.

Lemma firstOutcome_true test ps :
  firstOutcome test ps = Some true <-> passesBeforeFailure test ps.
Proof.
  split.
  - induction ps as [|p rest IH]; simpl; [discriminate|].
    destruct (loopFromPolygon p) as [l|e] eqn:Hp; [|discriminate].
    destruct (test l) eqn:Ht.
    + intros _. exists [], p, rest. repeat split; [constructor|].
      exists l; auto.
    + intros H. destruct (IH H) as (pre & r & post & -> & Hpre & Hr).
      exists (p :: pre), r, post. repeat split; auto.
      constructor; [exists l|]; assumption.
  - intros (pre & r & post & -> & Hpre & (l & Hl & Ht)).
    induction Hpre as [|a pre (la & Ha) _ IH]; simpl.
    + now rewrite Hl, Ht.
    + rewrite Ha. destruct (test la); auto.
Qed.

Lemma passesBeforeFailure_converting test ps :
  Forall converts ps ->
  passesBeforeFailure test ps <-> exists r, In r ps /\ ringPasses test r.
Proof.
  intros Hall; split.
  - intros (pre & r & post & -> & _ & Hr). exists r; split; auto.
    apply in_or_app; right; left; reflexivity.
  - intros (r & Hin & Hr).
    destruct (in_split _ _ Hin) as (pre & post & ->).
    exists pre, r, post. repeat split; auto.
    apply Forall_app in Hall. tauto.
Qed.

Lemma firstOutcome_failure test pre bad post e :
  loopFromPolygon bad = Err e ->
  (forall r, In r pre -> ~ ringPasses test r) ->
  firstOutcome test (pre ++ bad :: post) = Some false.
Proof.
  intros Hbad. induction pre as [|a pre IH]; simpl; intros Hno.
  - now rewrite Hbad.
  - destruct (loopFromPolygon a) as [la|] eqn:Ha; auto.
    destruct (test la) eqn:Ht.
    + exfalso. apply (Hno a); [now left|]. exists la; auto.
    + apply IH. intros r Hr. apply Hno. now right.
Qed.

Lemma everyOutcome_true test ps :
  everyOutcome test ps = true <-> forall r, In r ps -> ringPasses test r.
Proof.
  induction ps as [|p rest IH]; simpl.
  - split; [intros _ r []|reflexivity].
  - destruct (loopFromPolygon p) as [l|e] eqn:Hp.
    + destruct (test l) eqn:Ht; simpl.
      * rewrite IH. split.
        -- intros H r [<-|Hr]; [exists l|]; auto.
        -- intros H r Hr. apply H. now right.
      * split; [discriminate|]. intros H.
        destruct (H p (or_introl eq_refl)) as (l' & Hl' & Ht').
        congruence.
    + split; [discriminate|]. intros H.
      destruct (H p (or_introl eq_refl)) as (l' & Hl' & _). congruence.
Qed.

(** The loops of the source are instances of the two shapes. *)

Lemma loopWithinMultiloops_existsb l ls :
  loopWithinMultiloops l ls = existsb (fun f => Contains f l) ls.
Proof.
  induction ls as [|f rest IH]; simpl; [reflexivity|].
  rewrite IH. now destruct (Contains f l).
Qed.

Lemma withinLoopsEach_every ps ls :
  withinLoopsEach ps ls = everyOutcome (fun l => loopWithinMultiloops l ls) ps.
Proof.
  induction ps as [|p rest IH]; simpl; [reflexivity|]. now rewrite IH.
Qed.

Lemma withinCapEach_every ps c :
  withinCapEach ps c = everyOutcome (fun l => withinCapPolygon l c) ps.
Proof.
  induction ps as [|p rest IH]; simpl; [reflexivity|]. now rewrite IH.
Qed.

Lemma containsPointEach_first ps p :
  containsPointEach ps p = firstOutcome (fun l => Loop_ContainsPoint l p) ps.
Proof.
  induction ps as [|r rest IH]; simpl; [reflexivity|]. now rewrite IH.
Qed.

Lemma multiPolygonContainsLoop_first g l :
  multiPolygonContainsLoop g l = true
  <-> firstOutcome (fun s => Contains s l) g = Some true.
Proof.
  induction g as [|p rest IH]; simpl; [split; discriminate|].
  destruct (loopFromPolygon p); [|split; discriminate].
  destruct (Contains a l); [tauto|exact IH].
Qed.

Lemma intersectsEach_first ps ls :
  intersectsEach ps ls =
  match firstOutcome (fun l => existsb (fun loop => Intersects l loop) ls) ps with
  | Some b => b
  | None => false
  end.
Proof.
  induction ps as [|p rest IH]; simpl; [reflexivity|].
  destruct (loopFromPolygon p); [|reflexivity].
  destruct (existsb _ ls); [reflexivity|exact IH].
Qed.

Lemma nonempty_true {A : Type} (s : list A) : s <> [] -> nonempty s = true.
Proof. destruct s; [congruence|reflexivity]. Qed.

Lemma nonempty_false {A : Type} (s : list A) : nonempty s = false -> s = [].
Proof. destruct s; [reflexivity|discriminate]. Qed.

End Rings.

(** ** The exact-match evaluator *)

Section Evaluator.
Context {GT : GeoTypes} {GL : GeoLib}.

Lemma ringInSomeLoop_passes ls r :
  ringInSomeLoop ls r <-> ringPasses (fun l => loopWithinMultiloops l ls) r.
Proof.
  unfold ringInSomeLoop, ringPasses. split.
  - intros (l & f & Hl & Hin & Hc). exists l; split; auto.
    rewrite loopWithinMultiloops_existsb. apply existsb_exists. eauto.
  - intros (l & Hl & Ht). rewrite loopWithinMultiloops_existsb in Ht.
    apply existsb_exists in Ht. destruct Ht as (f & Hin & Hc). eauto.
Qed.

Lemma ringMeetsSomeLoop_passes ls r :
  ringMeetsSomeLoop ls r
  <-> ringPasses (fun l => existsb (fun loop => Intersects l loop) ls) r.
Proof.
  unfold ringMeetsSomeLoop, ringPasses. split.
  - intros (l & f & Hl & Hin & Hc). exists l; split; auto.
    apply existsb_exists. eauto.
  - intros (l & Hl & Ht).
    apply existsb_exists in Ht. destruct Ht as (f & Hin & Hc). eauto.
Qed.

Lemma isWithin_multipolygon_loops q ps :
  loops q <> [] ->
  isWithin q (TMultiPolygon ps) = Return (withinLoopsEach ps (loops q)).
Proof.
  intros Hne. unfold isWithin.
  rewrite (nonempty_true _ Hne), orb_true_r. reflexivity.
Qed.

Lemma MatchesFilter_within q g :
  qtype q = QueryTypeWithin -> MatchesFilter q g = isWithin q g.
Proof. intros Hq. unfold MatchesFilter. now rewrite Hq. Qed.

Lemma MatchesFilter_contains q g :
  qtype q = QueryTypeContains -> MatchesFilter q g = contains q g.
Proof. intros Hq. unfold MatchesFilter. now rewrite Hq. Qed.

Lemma MatchesFilter_intersects q g :
  qtype q = QueryTypeIntersects -> MatchesFilter q g = intersects q g.
Proof. intros Hq. unfold MatchesFilter. now rewrite Hq. Qed.

Lemma MatchesFilter_near q g :
  qtype q = QueryTypeNear ->
  MatchesFilter q g =
  match cap q with None => Return false | Some _ => isWithin q g end.
Proof. intros Hq. unfold MatchesFilter. now rewrite Hq. Qed.

Lemma contains_multipolygon_point q ps p :
  pt q = Some p -> loops q = [] ->
  contains q (TMultiPolygon ps) =
  Return (match firstOutcome (fun l => Loop_ContainsPoint l p) ps with
          | Some b => b
          | None => false
          end).
Proof.
  intros Hp Hl. unfold contains. rewrite Hp, Hl. simpl.
  rewrite containsPointEach_first.
  now destruct (firstOutcome _ ps).
Qed.

Lemma contains_multipolygon_loops q ps :
  pt q = None -> loops q <> [] ->
  contains q (TMultiPolygon ps) =
  Return (forallb (fun l => multiPolygonContainsLoop ps l) (loops q)).
Proof.
  intros Hp Hl. unfold contains. rewrite Hp, (nonempty_true _ Hl). reflexivity.
Qed.

(** C2, amended.  For a contains filter and a multi-polygon candidate: when
    the filter holds a point and no loops, the evaluator answers true exactly
    when some ring of the candidate contains the point and every ring before
    it converts; when the filter holds loops and no point, it answers true
    exactly when for every filter loop some ring contains it and every ring
    before that ring converts, the rings being free to differ from loop to
    loop.  On a candidate all of whose rings convert, it is "some ring" in
    both cases. *)
Theorem contains_multipolygon_rings
    (q : GeoQueryData) (ps : list geomPolygon) :
  qtype q = QueryTypeContains ->
  (forall p, pt q = Some p -> loops q = [] ->
     exists b,
       MatchesFilter q (TMultiPolygon ps) = Return b
       /\ (b = true
           <-> passesBeforeFailure (fun l => Loop_ContainsPoint l p) ps))
  /\ (pt q = None -> loops q <> [] ->
      exists b,
        MatchesFilter q (TMultiPolygon ps) = Return b
        /\ (b = true
            <-> forall l, In l (loops q) ->
                  passesBeforeFailure (fun s => Contains s l) ps))
  /\ (Forall converts ps ->
      forall test,
        passesBeforeFailure test ps
        <-> exists r, In r ps /\ ringPasses test r).
Proof.
  intros Hq. rewrite MatchesFilter_contains by assumption.
  split; [|split].
  - intros p Hp Hl. eexists. split; [apply contains_multipolygon_point with (p := p); assumption|].
    rewrite <- firstOutcome_true.
    destruct (firstOutcome _ ps) as [[|]|]; split; congruence.
  - intros Hp Hl. eexists. split; [now apply contains_multipolygon_loops|].
    rewrite forallb_forall. split; intros Hall l Hin.
    + apply firstOutcome_true, multiPolygonContainsLoop_first. auto.
    + apply multiPolygonContainsLoop_first, firstOutcome_true. auto.
  - intros Hall test. now apply passesBeforeFailure_converting.
Qed.

Lemma intersects_multipolygon q ps :
  loops q <> [] ->
  intersects q (TMultiPolygon ps) = Return (intersectsEach ps (loops q)).
Proof.
  intros Hne. unfold intersects. now rewrite (nonempty_true _ Hne).
Qed.

(** C9, amended.  In the intersects evaluator applied to a multi-polygon
    candidate, a ring that does not convert, with no ring before it that
    intersects a filter loop, makes the answer false for the whole candidate,
    whatever the rings after it are. *)
Theorem intersects_multipolygon_failed_ring
    (q : GeoQueryData) (pre post : list geomPolygon) (bad : geomPolygon)
    (e : error) :
  loops q <> [] ->
  loopFromPolygon bad = Err e ->
  (forall r, In r pre -> ~ ringMeetsSomeLoop (loops q) r) ->
  intersects q (TMultiPolygon (pre ++ bad :: post)) = Return false
  /\ (qtype q = QueryTypeIntersects ->
      MatchesFilter q (TMultiPolygon (pre ++ bad :: post)) = Return false).
Proof.
  intros Hne Hbad Hpre.
  assert (Hres : intersects q (TMultiPolygon (pre ++ bad :: post))
                 = Return false).
  { rewrite intersects_multipolygon by assumption.
    rewrite intersectsEach_first.
    rewrite (firstOutcome_failure _ pre bad post e); auto.
    intros r Hr Hpass. apply (Hpre r Hr).
    now apply ringMeetsSomeLoop_passes. }
  split; [exact Hres|].
  intros Hq. now rewrite MatchesFilter_intersects.
Qed.

(** A ring before the first ring that does not convert decides the answer
    when it intersects a filter loop. *)
Lemma intersects_multipolygon_hit_first q ps :
  loops q <> [] ->
  intersects q (TMultiPolygon ps) = Return true
  <-> passesBeforeFailure
        (fun l => existsb (fun loop => Intersects l loop) (loops q)) ps.
Proof.
  intros Hne. rewrite intersects_multipolygon by assumption.
  rewrite intersectsEach_first, <- firstOutcome_true.
  destruct (firstOutcome _ ps) as [[|]|]; split; congruence.
Qed.

(** C10.  A near filter without a cap is answered with false for every
    candidate, whatever else it holds, where an empty filter of the three
    other kinds stops at the assertion of its path. *)
Theorem near_without_cap_answers_false
    (p : option s2Point) (ls : list s2Loop) (c : option s2Cap) (g : geomT) :
  MatchesFilter (mkGeoQueryData p ls None QueryTypeNear) g = Return false
  /\ MatchesFilter (mkGeoQueryData None [] None QueryTypeWithin) g
     = Fatal "At least a point, loop or cap should be defined."
  /\ MatchesFilter (mkGeoQueryData None [] c QueryTypeContains) g
     = Fatal "At least a point or loop should be defined."
  /\ MatchesFilter (mkGeoQueryData p [] c QueryTypeIntersects) g
     = Fatal "Loop should be defined for intersects.".
Proof. repeat split. Qed.

End Evaluator.

(** ** Token generation *)

Section Tokens.
Context {GT : GeoTypes} {GL : GeoLib}.

Lemma queryShape_point_or_loops g ls p :
  queryShape g = Ok (ls, p) -> (ls = [] /\ p <> None) \/ p = None.
Proof.
  destruct g as [v|v|v|v]; simpl.
  - intros [= <- <-]. left. split; congruence.
  - destruct (loopFromPolygon v); [|discriminate]. intros [= <- <-]. now right.
  - destruct (appendLoops v []); [|discriminate]. intros [= <- <-]. now right.
  - discriminate.
Qed.

(** Past the type switch, the assertion and the cells, [queryTokensGeo] is
    its switch on the kind. *)
Lemma queryTokensGeo_switch qt g d ls p parents cover :
  queryShape g = Ok (ls, p) ->
  nonempty ls || notnil p = true ->
  indexCells g = Ok (parents, cover) ->
  queryTokensGeo qt g d =
  if Byte.eqb qt QueryTypeWithin then
    if Nat.eqb (List.length ls) 0 then
      Return (Err (Errorf "Require a polygon for within query" []))
    else
      Return (Ok (createTokens cover parentPrefix, mkGeoQueryData None ls None qt))
  else if Byte.eqb qt QueryTypeContains then
    Return (Ok (createTokens parents coverPrefix, mkGeoQueryData p ls None qt))
  else if Byte.eqb qt QueryTypeNear then
    if nonempty ls then
      Return (Err (Errorf "Cannot use a polygon in a near query" []))
    else
      match p with
      | Some p' => Return (nearQueryKeys p' d)
      | None => Fatal "invalid memory address or nil pointer dereference"
      end
  else if Byte.eqb qt QueryTypeIntersects then
    if Nat.eqb (List.length ls) 0 then
      Return (Err (Errorf "Require a polygon for intersects query" []))
    else
      Return (Ok (parentCoverTokens parents cover, mkGeoQueryData None ls None qt))
  else
    Return (Err (Errorf "Unknown query type" [])).
Proof.
  intros Hs Ha Hc. unfold queryTokensGeo. rewrite Hs. simpl.
  rewrite Ha. simpl. rewrite Hc. reflexivity.
Qed.

(** A call that returns keys got past the type switch, the assertion and the
    cells. *)
Lemma queryTokensGeo_ok_inv qt g d keys q :
  queryTokensGeo qt g d = Return (Ok (keys, q)) ->
  exists ls p parents cover,
    queryShape g = Ok (ls, p)
    /\ nonempty ls || notnil p = true
    /\ indexCells g = Ok (parents, cover).
Proof.
  unfold queryTokensGeo.
  destruct (queryShape g) as [[ls p]|]; [|discriminate]. simpl.
  destruct (nonempty ls || notnil p) eqn:Ha; [|discriminate]. simpl.
  destruct (indexCells g) as [[parents cover]|]; [|discriminate].
  intros _. exists ls, p, parents, cover. repeat split. exact Ha.
Qed.

Lemma nearQueryKeys_filter p d keys q :
  nearQueryKeys p d = Ok (keys, q) -> QueryFilterOk q.
Proof.
  unfold nearQueryKeys. destruct (float_le d float_zero); [discriminate|].
  intros [= _ <-]. constructor.
Qed.

Lemma length_zero_false {A : Type} (s : list A) :
  Nat.eqb (List.length s) 0 = false -> exists x rest, s = x :: rest.
Proof. destruct s; [discriminate|eauto]. Qed.

Lemma queryTokensGeo_filter qt g d keys q :
  queryTokensGeo qt g d = Return (Ok (keys, q)) -> QueryFilterOk q.
Proof.
  intros Hok.
  destruct (queryTokensGeo_ok_inv _ _ _ _ _ Hok)
    as (ls & p & parents & cover & Hs & Ha & Hc).
  rewrite (queryTokensGeo_switch qt g d ls p parents cover Hs Ha Hc) in Hok.
  destruct (Byte.eqb qt QueryTypeWithin) eqn:E0.
  { apply byte_dec_bl in E0. subst qt.
    destruct (Nat.eqb (List.length ls) 0) eqn:El; [discriminate|].
    destruct (length_zero_false _ El) as (l & rest & ->).
    injection Hok as _ <-. constructor. }
  destruct (Byte.eqb qt QueryTypeContains) eqn:E1.
  { apply byte_dec_bl in E1. subst qt. injection Hok as _ <-.
    destruct (queryShape_point_or_loops _ _ _ Hs) as [[-> Hp]| ->].
    - destruct p; [constructor|congruence].
    - destruct ls; [discriminate|constructor]. }
  destruct (Byte.eqb qt QueryTypeNear) eqn:E3.
  { destruct (nonempty ls); [discriminate|].
    destruct p; [|discriminate].
    injection Hok as Hn. exact (nearQueryKeys_filter _ _ _ _ Hn). }
  destruct (Byte.eqb qt QueryTypeIntersects) eqn:E2; [|discriminate].
  apply byte_dec_bl in E2. subst qt.
  destruct (Nat.eqb (List.length ls) 0) eqn:El; [discriminate|].
  destruct (length_zero_false _ El) as (l & rest & ->).
  injection Hok as _ <-. constructor.
Qed.

Lemma geoTokensNoDistance_generated qt format funcArgs keys q :
  geoTokensNoDistance qt format funcArgs = Return (Ok (keys, q)) ->
  exists g, queryTokensGeo qt g float_zero = Return (Ok (keys, q)).
Proof.
  unfold geoTokensNoDistance.
  destruct (negb _); [discriminate|].
  destruct (convertToGeom _) as [g|]; [|discriminate]. eauto.
Qed.

Lemma GetGeoTokens_generated funcArgs keys q :
  GetGeoTokens funcArgs = Return (Ok (keys, q)) ->
  exists qt g d, queryTokensGeo qt g d = Return (Ok (keys, q)).
Proof.
  unfold GetGeoTokens.
  destruct (Nat.ltb 1 (List.length funcArgs)); [|discriminate]. simpl.
  destruct (String.eqb _ "near").
  { destruct (negb _); [discriminate|].
    destruct (ParseFloat _) as [maxDist|]; [|discriminate].
    destruct (float_lt maxDist float_zero); [discriminate|].
    destruct (convertToGeom _) as [g|]; [|discriminate]. eauto. }
  destruct (String.eqb _ "within").
  { intros Hg. apply geoTokensNoDistance_generated in Hg as (g & Hg). eauto. }
  destruct (String.eqb _ "contains").
  { intros Hg. apply geoTokensNoDistance_generated in Hg as (g & Hg). eauto. }
  destruct (String.eqb _ "intersects"); [|discriminate].
  intros Hg. apply geoTokensNoDistance_generated in Hg as (g & Hg). eauto.
Qed.

Lemma generated_QueryFilterOk q : generated q -> QueryFilterOk q.
Proof.
  intros [(qt & g & d & keys & Hg)|[(p & d & keys & Hn)|(a & keys & Hg)]].
  - exact (queryTokensGeo_filter _ _ _ _ _ Hg).
  - exact (nearQueryKeys_filter _ _ _ _ Hn).
  - destruct (GetGeoTokens_generated _ _ _ Hg) as (qt & g & d & Hq).
    exact (queryTokensGeo_filter _ _ _ _ _ Hq).
Qed.

(** C6.  Every filter that token generation returns holds exactly one of a
    point, a non-empty loop set and a cap, as its kind requires: a near
    filter only a cap, a within or intersects filter only a non-empty loop
    set, a contains filter a point or a non-empty loop set and nothing
    else. *)
Theorem generated_filter_one_discriminant (q : GeoQueryData) :
  generated q ->
  QueryFilterOk q
  /\ (qtype q = QueryTypeNear ->
      cap q <> None /\ pt q = None /\ loops q = [])
  /\ (qtype q = QueryTypeWithin \/ qtype q = QueryTypeIntersects ->
      loops q <> [] /\ pt q = None /\ cap q = None)
  /\ (qtype q = QueryTypeContains ->
      cap q = None
      /\ ((pt q <> None /\ loops q = []) \/ (pt q = None /\ loops q <> [])))
  /\ (qtype q = QueryTypeNear \/ qtype q = QueryTypeWithin
      \/ qtype q = QueryTypeIntersects \/ qtype q = QueryTypeContains).
Proof.
  intros Hgen. pose proof (generated_QueryFilterOk q Hgen) as Hok.
  split; [exact Hok|].
  destruct Hok; simpl; unfold QueryTypeNear, QueryTypeWithin,
    QueryTypeIntersects, QueryTypeContains; intuition congruence.
Qed.

End Tokens.

Section Requirements.
Context {GT : GeoTypes} {GL : GeoLib}.

Lemma queryTokensGeo_rejected qt g d ls p e0 :
  queryShape g = Ok (ls, p) ->
  nonempty ls || notnil p = true ->
  (forall parents cover,
     indexCells g = Ok (parents, cover) ->
     queryTokensGeo qt g d = Return (Err e0)) ->
  rejectedWith (queryTokensGeo qt g d) g e0.
Proof.
  intros Hs Ha Hsw. unfold rejectedWith.
  destruct (indexCells g) as [[parents cover]|e] eqn:Hc.
  - exists e0. split; [now apply (Hsw parents cover)|reflexivity].
  - exists e. split; [|reflexivity].
    unfold queryTokensGeo. rewrite Hs. simpl. rewrite Ha. simpl.
    now rewrite Hc.
Qed.

Lemma eqb_neq (a b : byte) : a <> b -> Byte.eqb a b = false.
Proof.
  intros Hne. destruct (Byte.eqb a b) eqn:E; [|reflexivity].
  now apply byte_dec_bl in E.
Qed.

(** C7.  Token generation enforces what each kind requires of the query
    region.  A within or an intersects query on a point, and a near query on
    a region with loops, return an error that says so, and an unknown kind
    returns the unknown-kind error; none returns keys or a filter.  (A region
    whose cells cannot be derived is rejected with the error of the
    derivation, which comes first.) *)
Theorem geometry_requirements_enforced
    (qt : QueryType) (g : geomT) (d : float64)
    (ls : list s2Loop) (p : option s2Point) :
  queryShape g = Ok (ls, p) ->
  (ls = [] -> p <> None ->
     rejectedWith (queryTokensGeo QueryTypeWithin g d) g
       (Errorf "Require a polygon for within query" [])
     /\ rejectedWith (queryTokensGeo QueryTypeIntersects g d) g
          (Errorf "Require a polygon for intersects query" []))
  /\ (ls <> [] ->
      rejectedWith (queryTokensGeo QueryTypeNear g d) g
        (Errorf "Cannot use a polygon in a near query" []))
  /\ (ls <> [] \/ p <> None ->
      qt <> QueryTypeWithin -> qt <> QueryTypeContains ->
      qt <> QueryTypeIntersects -> qt <> QueryTypeNear ->
      rejectedWith (queryTokensGeo qt g d) g (Errorf "Unknown query type" [])).
Proof.
  intros Hs. split; [|split].
  - intros -> Hp.
    assert (Ha : nonempty (@nil s2Loop) || notnil p = true)
      by (destruct p; [reflexivity|congruence]).
    split; apply (queryTokensGeo_rejected _ g d [] p _ Hs Ha);
      intros parents cover Hc;
      now rewrite (queryTokensGeo_switch _ g d [] p parents cover Hs Ha Hc).
  - intros Hne.
    assert (Ha : nonempty ls || notnil p = true)
      by now rewrite (nonempty_true _ Hne).
    apply (queryTokensGeo_rejected _ g d ls p _ Hs Ha).
    intros parents cover Hc.
    rewrite (queryTokensGeo_switch _ g d ls p parents cover Hs Ha Hc).
    simpl. now rewrite (nonempty_true _ Hne).
  - intros Hsome H0 H1 H2 H3.
    assert (Ha : nonempty ls || notnil p = true).
    { destruct Hsome as [Hne|Hp].
      - now rewrite (nonempty_true _ Hne).
      - destruct p; [apply orb_true_r|congruence]. }
    apply (queryTokensGeo_rejected _ g d ls p _ Hs Ha).
    intros parents cover Hc.
    rewrite (queryTokensGeo_switch _ g d ls p parents cover Hs Ha Hc).
    now rewrite (eqb_neq _ _ H0), (eqb_neq _ _ H1), (eqb_neq _ _ H3),
      (eqb_neq _ _ H2).
Qed.

(** An unknown function name is rejected before any geometry is read. *)
Lemma GetGeoTokens_unknown_function funcArgs :
  1 < List.length funcArgs ->
  ToLower (arg funcArgs 0) <> "near" ->
  ToLower (arg funcArgs 0) <> "within" ->
  ToLower (arg funcArgs 0) <> "contains" ->
  ToLower (arg funcArgs 0) <> "intersects" ->
  GetGeoTokens funcArgs = Return (Err (Errorf "Invalid geo function" [])).
Proof.
  intros Hlen H0 H1 H2 H3. unfold GetGeoTokens.
  apply Nat.ltb_lt in Hlen. rewrite Hlen. simpl.
  apply String.eqb_neq in H0, H1, H2, H3.
  now rewrite H0, H1, H2, H3.
Qed.

Lemma nearQueryKeys_nonpositive p d :
  float_le d float_zero = true ->
  nearQueryKeys p d =
  Err (Errorf "Invalid max distance specified for a near query" []).
Proof. intros Hd. unfold nearQueryKeys. now rewrite Hd. Qed.

Lemma queryTokensGeo_near_point v d :
  exists r,
    queryTokensGeo QueryTypeNear (TPoint v) d = Return r
    /\ match indexCells (TPoint v) with
       | Err e => r = Err e
       | Ok _ => r = nearQueryKeys (pointFromPoint v) d
       end.
Proof.
  unfold queryTokensGeo. simpl.
  destruct (indexCells (TPoint v)) as [[parents cover]|e]; eauto.
Qed.

(** C8.  A distance [d <= 0], zero included, makes near token generation
    return an error, with neither keys nor a filter, for every point: in
    [nearQueryKeys], in [queryTokensGeo] and in [GetGeoTokens]; and so does a
    distance literal that does not parse. *)
Theorem near_rejects_nonpositive_distance (d : float64) :
  float_le d float_zero = true ->
  (forall p,
     nearQueryKeys p d =
     Err (Errorf "Invalid max distance specified for a near query" []))
  /\ (forall v,
        exists e, queryTokensGeo QueryTypeNear (TPoint v) d = Return (Err e))
  /\ (forall funcArgs v,
        ToLower (arg funcArgs 0) = "near" ->
        List.length funcArgs = 4 ->
        ParseFloat (arg funcArgs 3) = inl d ->
        convertToGeom (arg funcArgs 2) = Ok (TPoint v) ->
        exists e, GetGeoTokens funcArgs = Return (Err e))
  /\ (forall funcArgs err,
        ToLower (arg funcArgs 0) = "near" ->
        List.length funcArgs = 4 ->
        ParseFloat (arg funcArgs 3) = inr err ->
        GetGeoTokens funcArgs =
        Return (Err (Wrapf err "Error while converting distance to float"))).
Proof.
  intros Hd.
  assert (Hq : forall v, exists e,
             queryTokensGeo QueryTypeNear (TPoint v) d = Return (Err e)).
  { intros v. destruct (queryTokensGeo_near_point v d) as (r & -> & Hr).
    destruct (indexCells (TPoint v)); subst r; [|eauto].
    rewrite (nearQueryKeys_nonpositive _ _ Hd). eauto. }
  split; [intros p; now apply nearQueryKeys_nonpositive|].
  split; [exact Hq|].
  split.
  - intros funcArgs v Hname Hlen Hparse Hgeom. unfold GetGeoTokens.
    rewrite Hlen, Hname, Hparse, Hgeom. simpl.
    destruct (float_lt d float_zero); [eauto|apply Hq].
  - intros funcArgs err Hname Hlen Hparse. unfold GetGeoTokens.
    now rewrite Hlen, Hname, Hparse.
Qed.

(** C3.  The keys of an intersects query are the keys of the within query on
    the same region, the parent tag over its cover cells, together with the
    keys of the contains query on it, the cover tag over its ancestor
    cells. *)
Theorem intersects_keys_union
    (g : geomT) (d : float64) (keys : list string) (q : GeoQueryData) :
  queryTokensGeo QueryTypeIntersects g d = Return (Ok (keys, q)) ->
  exists parents cover qw qc,
    indexCells g = Ok (parents, cover)
    /\ queryTokensGeo QueryTypeWithin g d
       = Return (Ok (createTokens cover parentPrefix, qw))
    /\ queryTokensGeo QueryTypeContains g d
       = Return (Ok (createTokens parents coverPrefix, qc))
    /\ forall t,
         In t keys
         <-> In t (createTokens cover parentPrefix)
             \/ In t (createTokens parents coverPrefix).
Proof.
  intros Hok.
  destruct (queryTokensGeo_ok_inv _ _ _ _ _ Hok)
    as (ls & p & parents & cover & Hs & Ha & Hc).
  rewrite (queryTokensGeo_switch _ g d ls p parents cover Hs Ha Hc) in Hok.
  simpl in Hok.
  destruct (Nat.eqb (List.length ls) 0) eqn:El; [discriminate|].
  injection Hok as <- _.
  exists parents, cover. eexists. eexists.
  split; [exact Hc|].
  split; [|split].
  - rewrite (queryTokensGeo_switch _ g d ls p parents cover Hs Ha Hc).
    simpl. rewrite El. reflexivity.
  - rewrite (queryTokensGeo_switch _ g d ls p parents cover Hs Ha Hc).
    reflexivity.
  - intros t. unfold parentCoverTokens. apply in_app_iff.
Qed.

(** A region with loops whose cells can be derived gets intersects keys. *)
Lemma intersects_keys_produced g d ls p parents cover :
  queryShape g = Ok (ls, p) -> ls <> [] ->
  indexCells g = Ok (parents, cover) ->
  queryTokensGeo QueryTypeIntersects g d =
  Return (Ok (parentCoverTokens parents cover,
              mkGeoQueryData None ls None QueryTypeIntersects)).
Proof.
  intros Hs Hne Hc.
  assert (Ha : nonempty ls || notnil p = true)
    by now rewrite (nonempty_true _ Hne).
  rewrite (queryTokensGeo_switch _ g d ls p parents cover Hs Ha Hc). simpl.
  destruct ls; [congruence|reflexivity].
Qed.

End Requirements.

(** ** The within evaluator on the filters of token generation *)

Section WithinGenerated.
Context {GT : GeoTypes} {GL : GeoLib}.

(** C1.  When the filter has loops, [isWithin], which serves the within and
    the near kinds, answers a multi-polygon candidate with true exactly when
    every ring of the candidate converts to a loop that some filter loop
    contains; one ring in no filter loop makes the answer false.
    [MatchesFilter] gives that answer for a within filter, for a near filter
    that has its cap, and for every filter of the within or the near kind
    that token generation returns. *)
Theorem within_multipolygon_every_ring_in_some_loop
    (q : GeoQueryData) (ps : list geomPolygon) :
  loops q <> [] ->
  exists b,
    isWithin q (TMultiPolygon ps) = Return b
    /\ (b = true <-> forall r, In r ps -> ringInSomeLoop (loops q) r)
    /\ (forall r, In r ps -> ~ ringInSomeLoop (loops q) r -> b = false)
    /\ (qtype q = QueryTypeWithin ->
        MatchesFilter q (TMultiPolygon ps) = Return b)
    /\ (qtype q = QueryTypeNear -> cap q <> None ->
        MatchesFilter q (TMultiPolygon ps) = Return b)
    /\ (generated q ->
        qtype q = QueryTypeWithin \/ qtype q = QueryTypeNear ->
        MatchesFilter q (TMultiPolygon ps) = Return b).
Proof.
  intros Hne. exists (withinLoopsEach ps (loops q)).
  assert (Hiff : withinLoopsEach ps (loops q) = true
                 <-> forall r, In r ps -> ringInSomeLoop (loops q) r).
  { rewrite withinLoopsEach_every, everyOutcome_true.
    split; intros Hall r Hr; apply ringInSomeLoop_passes; auto. }
  assert (Hwithin : qtype q = QueryTypeWithin ->
                    MatchesFilter q (TMultiPolygon ps)
                    = Return (withinLoopsEach ps (loops q))).
  { intros Hq. rewrite MatchesFilter_within by assumption.
    now apply isWithin_multipolygon_loops. }
  split; [now apply isWithin_multipolygon_loops|].
  split; [exact Hiff|].
  split.
  { intros r Hr Hnot. apply not_true_iff_false. intros Ht.
    apply Hnot. now apply Hiff. }
  split; [exact Hwithin|].
  split.
  - intros Hq Hcap. rewrite MatchesFilter_near by assumption.
    destruct (cap q); [|congruence].
    now apply isWithin_multipolygon_loops.
  - intros Hgen [Hq|Hq]; [now apply Hwithin|].
    exfalso. pose proof (generated_QueryFilterOk q Hgen) as Hok.
    destruct Hok; simpl in *;
      unfold QueryTypeNear, QueryTypeWithin, QueryTypeIntersects,
        QueryTypeContains in *; congruence.
Qed.

End WithinGenerated.

(** ** Totality of the evaluator and the candidate scanner *)

Section Scanner.
Context {GT : GeoTypes} {GL : GeoLib}.

Lemma QueryFilterOk_assertionsHold q :
  QueryFilterOk q -> assertionsHold q = true.
Proof. intros Hok. destruct Hok; reflexivity. Qed.

Lemma isWithin_returns q g :
  notnil (pt q) || nonempty (loops q) || notnil (cap q) = true ->
  exists b, isWithin q g = Return b /\ (forall v, g = TOther v -> b = false).
Proof.
  intros Ha. unfold isWithin. rewrite Ha. simpl.
  destruct g as [v|v|v|v].
  - destruct (pt q) as [qpt|] eqn:Hp;
      [eexists; split; [reflexivity|discriminate]|].
    destruct (nonempty (loops q)) eqn:Hl;
      [eexists; split; [reflexivity|discriminate]|].
    destruct (cap q) as [c|]; [|discriminate].
    eexists; split; [reflexivity|discriminate].
  - destruct (loopFromPolygon v);
      [|eexists; split; [reflexivity|discriminate]].
    destruct (nonempty (loops q));
      [eexists; split; [reflexivity|discriminate]|].
    destruct (cap q); eexists; (split; [reflexivity|discriminate]).
  - destruct (nonempty (loops q));
      [eexists; split; [reflexivity|discriminate]|].
    destruct (cap q); eexists; (split; [reflexivity|discriminate]).
  - exists false. split; reflexivity.
Qed.

Lemma contains_returns q g :
  notnil (pt q) || nonempty (loops q) = true ->
  exists b, contains q g = Return b /\ (forall v, g = TOther v -> b = false).
Proof.
  intros Ha. unfold contains. rewrite Ha. simpl.
  destruct g as [v|v|v|v].
  - exists false. split; [reflexivity|discriminate].
  - destruct (loopFromPolygon v);
      [|eexists; split; [reflexivity|discriminate]].
    destruct (pt q); eexists; (split; [reflexivity|discriminate]).
  - destruct (match pt q with
              | Some qpt => containsPointEach v qpt
              | None => None
              end);
      [eexists; split; [reflexivity|discriminate]|].
    destruct (nonempty (loops q));
      eexists; (split; [reflexivity|discriminate]).
  - exists false. split; reflexivity.
Qed.

Lemma intersects_returns q g :
  nonempty (loops q) = true ->
  exists b, intersects q g = Return b /\ (forall v, g = TOther v -> b = false).
Proof.
  intros Ha. unfold intersects. rewrite Ha. simpl.
  destruct g as [v|v|v|v].
  - eexists; split; [reflexivity|discriminate].
  - destruct (loopFromPolygon v);
      eexists; (split; [reflexivity|discriminate]).
  - eexists; split; [reflexivity|discriminate].
  - exists false. split; reflexivity.
Qed.

(** The evaluator returns on every candidate when the assertion of its path
    holds of the filter, and only then. *)
Lemma MatchesFilter_returns q g :
  assertionsHold q = true ->
  exists b,
    MatchesFilter q g = Return b /\ (forall v, g = TOther v -> b = false).
Proof.
  unfold assertionsHold, MatchesFilter.
  destruct (Byte.eqb (qtype q) QueryTypeWithin);
    [apply isWithin_returns|].
  destruct (Byte.eqb (qtype q) QueryTypeContains);
    [apply contains_returns|].
  destruct (Byte.eqb (qtype q) QueryTypeIntersects);
    [apply intersects_returns|].
  intros _.
  destruct (Byte.eqb (qtype q) QueryTypeNear);
    [|exists false; split; reflexivity].
  destruct (cap q) as [c|] eqn:Hc; [|exists false; split; reflexivity].
  apply isWithin_returns. rewrite Hc. apply orb_true_r.
Qed.

Lemma MatchesFilter_stops q g :
  assertionsHold q = false -> exists msg, MatchesFilter q g = Fatal msg.
Proof.
  unfold assertionsHold, MatchesFilter.
  destruct (Byte.eqb (qtype q) QueryTypeWithin).
  { intros Ha. unfold isWithin. rewrite Ha. simpl. eauto. }
  destruct (Byte.eqb (qtype q) QueryTypeContains).
  { intros Ha. unfold contains. rewrite Ha. simpl. eauto. }
  destruct (Byte.eqb (qtype q) QueryTypeIntersects); [|discriminate].
  intros Ha. unfold intersects. rewrite Ha. simpl. eauto.
Qed.

(** C5.  On a filter that token generation returned, the evaluator returns a
    boolean for every candidate, of any kind: no assertion of the within,
    contains and intersects paths fails, and a candidate that is neither a
    point, a polygon nor a multi-polygon is answered with false. *)
Theorem evaluator_total_on_generated (q : GeoQueryData) (g : geomT) :
  generated q ->
  exists b,
    MatchesFilter q g = Return b
    /\ (forall v, g = TOther v -> b = false).
Proof.
  intros Hgen. apply MatchesFilter_returns, QueryFilterOk_assertionsHold.
  now apply generated_QueryFilterOk.
Qed.

Lemma skipn_head {A : Type} (l : list A) i n :
  List.length (skipn i l) = S n ->
  exists u, nth_error l i = Some u /\ skipn i l = u :: skipn (S i) l.
Proof.
  revert l. induction i as [|i IH]; intros [|a l]; simpl; try discriminate.
  - intros _. exists a. split; reflexivity.
  - intros Hlen. destruct (IH l Hlen) as (u & Hu & Hs). exists u.
    split; [exact Hu|]. rewrite Hs. reflexivity.
Qed.

Lemma kept_cons q u us v vs :
  kept q (u :: us) (v :: vs) =
  if keeps q v then u :: kept q us vs else kept q us vs.
Proof. unfold kept. simpl. now destruct (keeps q v). Qed.

Lemma kept_nil q us : kept q us [] = [].
Proof. unfold kept. now rewrite combine_nil. Qed.

Lemma kept_app q us vs us' vs' :
  List.length us = List.length vs ->
  kept q (us ++ us') (vs ++ vs') = kept q us vs ++ kept q us' vs'.
Proof.
  revert vs. induction us as [|u us IH]; intros [|v vs]; simpl;
    try discriminate; intros Hl; [reflexivity|].
  rewrite !kept_cons, IH by now injection Hl.
  now destruct (keeps q v).
Qed.

Lemma filterFrom_kept q :
  assertionsHold q = true ->
  forall values i uids rv,
    List.length (skipn i uids) = List.length values ->
    filterFrom i uids values q rv = Return (rv ++ kept q (skipn i uids) values).
Proof.
  intros Hq. induction values as [|v rest IH]; intros i uids rv Hlen.
  - simpl. now rewrite kept_nil, app_nil_r.
  - simpl in Hlen. destruct (skipn_head uids i _ Hlen) as (u & Hu & Hs).
    assert (Hrest : List.length (skipn (S i) uids) = List.length rest).
    { rewrite Hs in Hlen. simpl in Hlen. now injection Hlen. }
    rewrite Hs, kept_cons. unfold keeps. simpl.
    destruct (Nat.eqb (List.length (Val v)) 0); simpl; [now apply IH|].
    destruct (Z.eqb (ValType v) GeoID); simpl; [|now apply IH].
    destruct (Convert (Val v)) as [g|e]; [|now apply IH].
    destruct (MatchesFilter_returns q g Hq) as (b & -> & _). simpl.
    destruct b; simpl; [|now apply IH].
    rewrite Hu, (IH (S i) uids (rv ++ [u]) Hrest), <- app_assoc.
    reflexivity.
Qed.

Lemma Subseq_kept q uids values : Subseq (kept q uids values) uids.
Proof.
  revert values. induction uids as [|u us IH]; intros values.
  - constructor.
  - destruct values as [|v vs].
    + rewrite kept_nil. apply Subseq_skip. specialize (IH []).
      now rewrite kept_nil in IH.
    + rewrite kept_cons. destruct (keeps q v);
        [apply Subseq_take|apply Subseq_skip]; apply IH.
Qed.

Lemma keeps_iff q v :
  keeps q v = true
  <-> Val v <> []
      /\ ValType v = GeoID
      /\ exists g, Convert (Val v) = Ok g /\ MatchesFilter q g = Return true.
Proof.
  unfold keeps. rewrite !andb_true_iff, negb_true_iff, Nat.eqb_neq, Z.eqb_eq.
  rewrite length_zero_iff_nil.
  split.
  - intros [[Hv Ht] Hm]. repeat split; auto.
    destruct (Convert (Val v)) as [g|]; [|discriminate].
    exists g. split; [reflexivity|].
    destruct (MatchesFilter q g); [now subst|discriminate].
  - intros (Hv & Ht & g & Hc & Hm). repeat split; auto.
    now rewrite Hc, Hm.
Qed.

(** C4.  On identifiers and values of the same length, and a query filter,
    the scanner returns the identifiers at the positions it keeps, in their
    order: a subsequence of the identifiers.  A position is kept exactly when
    its value is not empty, its type is the geometry type, its bytes decode
    and the evaluator answers true on the decoded value; a value that does
    not decode leaves its identifier out and nothing else.  The query filters
    are the filters that token generation returns, and with them every
    filter on which the assertion of the evaluator's path holds. *)
Theorem FilterGeoUids_keeps_matching
    (uids : list N) (values : list TaskValue) (q : GeoQueryData) :
  List.length uids = List.length values ->
  generated q \/ assertionsHold q = true ->
  FilterGeoUids uids values q = Return (kept q uids values)
  /\ Subseq (kept q uids values) uids
  /\ (forall v,
        keeps q v = true
        <-> Val v <> []
            /\ ValType v = GeoID
            /\ exists g,
                 Convert (Val v) = Ok g /\ MatchesFilter q g = Return true)
  /\ (forall us vs u v us' vs' e,
        List.length us = List.length vs ->
        Convert (Val v) = Err e ->
        kept q (us ++ u :: us') (vs ++ v :: vs')
        = kept q us vs ++ kept q us' vs').
Proof.
  intros Hlen Hfilter.
  assert (Hq : assertionsHold q = true).
  { destruct Hfilter as [Hgen|Ha]; [|exact Ha].
    now apply QueryFilterOk_assertionsHold, generated_QueryFilterOk. }
  split; [|split; [|split]].
  - unfold FilterGeoUids. rewrite Hlen, Nat.eqb_refl. simpl.
    now rewrite (filterFrom_kept q Hq values 0 uids []).
  - apply Subseq_kept.
  - intros v. apply keeps_iff.
  - intros us vs u v us' vs' e Hl Hc.
    rewrite kept_app, kept_cons by assumption.
    replace (keeps q v) with false; [reflexivity|].
    unfold keeps. now rewrite Hc, !andb_false_r.
Qed.

End Scanner.

(** ** The theorems at concrete inputs *)

Section Instances.
Import Grid.

(** A near filter with loops and no cap, which token generation never
    returns, does not reach [isWithin]: the cap test of [MatchesFilter]
    answers false, though every ring of the candidate is in a loop of the
    filter. *)
Lemma near_with_loops_example :
  ~ generated nearWithLoops
  /\ MatchesFilter nearWithLoops (TMultiPolygon [ringInA; ringInB])
     = Return false
  /\ isWithin nearWithLoops (TMultiPolygon [ringInA; ringInB]) = Return true.
Proof.
  split; [|split; reflexivity].
  intros Hgen. pose proof (generated_QueryFilterOk _ Hgen) as Hok.
  inversion Hok.
Qed.

Lemma within_multipolygon_every_ring_in_some_loop_witness :
  loops withinAB <> []
  /\ MatchesFilter withinAB (TMultiPolygon [ringInA; ringOutside]) = Return false
  /\ MatchesFilter withinAB (TMultiPolygon [ringInA; ringInB]) = Return true.
Proof.
  assert (Hne : loops withinAB <> []) by discriminate.
  split; [exact Hne|]. split.
  - destruct (within_multipolygon_every_ring_in_some_loop
                withinAB [ringInA; ringOutside] Hne)
      as (b & _ & _ & Hfalse & Hm & _).
    rewrite (Hm eq_refl). f_equal. apply (Hfalse ringOutside).
    + right; left; reflexivity.
    + intros (l & f & Hl & Hin & Hc). vm_compute in Hl. injection Hl as <-.
      destruct Hin as [<-|[<-|[]]]; discriminate Hc.
  - destruct (within_multipolygon_every_ring_in_some_loop
                withinAB [ringInA; ringInB] Hne)
      as (b & _ & Hiff & _ & Hm & _).
    rewrite (Hm eq_refl). f_equal. apply Hiff.
    intros r [<-|[<-|[]]].
    + exists (bounds ringInA), A. repeat split. left; reflexivity.
    + exists (bounds ringInB), B. repeat split. right; left; reflexivity.
Defined.

(** C2 as stated fails: the second ring contains the point of the filter,
    and the answer is false, because the first ring does not convert. *)
Lemma contains_any_ring_counterexample :
  ~ (MatchesFilter containsCentre (TMultiPolygon [ringBroken; ringAroundA])
     = Return true
     <-> exists r,
           In r [ringBroken; ringAroundA]
           /\ ringPasses (fun l => Loop_ContainsPoint l (5, 5)%Z) r).
Proof.
  intros [_ Hback].
  assert (Hm : MatchesFilter containsCentre
                 (TMultiPolygon [ringBroken; ringAroundA]) = Return true).
  { apply Hback. exists ringAroundA. split; [right; left; reflexivity|].
    exists (bounds ringAroundA). split; reflexivity. }
  vm_compute in Hm. discriminate Hm.
Qed.

(** A contains filter with a point and loops is answered by its loops when no
    ring holds the point. *)
Lemma contains_point_and_loops_example :
  MatchesFilter containsBoth (TMultiPolygon [ringAroundA]) = Return true
  /\ ~ exists r,
        In r [ringAroundA]
        /\ ringPasses (fun l => Loop_ContainsPoint l (50, 50)%Z) r.
Proof.
  split; [reflexivity|].
  intros (r & [<-|[]] & l & Hl & Hc). vm_compute in Hl.
  injection Hl as <-. discriminate Hc.
Qed.

Lemma contains_multipolygon_rings_witness :
  qtype containsCentre = QueryTypeContains
  /\ MatchesFilter containsCentre (TMultiPolygon [ringAroundA; ringBroken])
     = Return true
  /\ MatchesFilter containsCentre (TMultiPolygon [ringBroken; ringAroundA])
     = Return false.
Proof.
  split; [reflexivity|]. split.
  - destruct (contains_multipolygon_rings
                containsCentre [ringAroundA; ringBroken] eq_refl)
      as (Hpoint & _ & _).
    destruct (Hpoint (5, 5)%Z eq_refl eq_refl) as (b & -> & Hiff).
    f_equal. apply Hiff. exists [], ringAroundA, [ringBroken].
    split; [reflexivity|]. split; [constructor|].
    exists (bounds ringAroundA). split; reflexivity.
  - destruct (contains_multipolygon_rings
                containsCentre [ringBroken; ringAroundA] eq_refl)
      as (Hpoint & _ & _).
    destruct (Hpoint (5, 5)%Z eq_refl eq_refl) as (b & -> & Hiff).
    f_equal. apply not_true_iff_false. intros Hb.
    apply Hiff in Hb. destruct Hb as (pre & r & post & Hsplit & Hpre & Hr).
    destruct pre as [|a pre].
    + injection Hsplit as <- _. destruct Hr as (l & Hl & _). discriminate Hl.
    + injection Hsplit as <- _. inversion Hpre as [|? ? (l & Hl) _].
      discriminate Hl.
Defined.

(** C9 as stated fails: the second ring does not convert, and the answer is
    true, because the first ring intersects the filter loop. *)
Lemma intersects_failed_ring_counterexample :
  ~ ((exists r e, In r [ringInA; ringBroken] /\ loopFromPolygon r = Err e) ->
     intersects intersectsA (TMultiPolygon [ringInA; ringBroken]) = Return false).
Proof.
  intros Hclaim.
  assert (Hm : intersects intersectsA (TMultiPolygon [ringInA; ringBroken])
               = Return false).
  { apply Hclaim. exists ringBroken. eexists.
    split; [right; left; reflexivity|reflexivity]. }
  vm_compute in Hm. discriminate Hm.
Qed.

Lemma intersects_multipolygon_failed_ring_witness :
  loops intersectsA <> []
  /\ loopFromPolygon ringBroken
     = Err (Errorf "Can't convert ring with less than 4 pts" [])
  /\ (forall r, In r [ringOutside] -> ~ ringMeetsSomeLoop (loops intersectsA) r)
  /\ ringMeetsSomeLoop (loops intersectsA) ringInA
  /\ intersects intersectsA
       (TMultiPolygon ([ringOutside] ++ ringBroken :: [ringInA]))
     = Return false.
Proof.
  assert (Hne : loops intersectsA <> []) by discriminate.
  assert (Hpre : forall r, In r [ringOutside] ->
                   ~ ringMeetsSomeLoop (loops intersectsA) r).
  { intros r [<-|[]] (l & f & Hl & Hin & Hc). vm_compute in Hl.
    injection Hl as <-. destruct Hin as [<-|[]]. discriminate Hc. }
  split; [exact Hne|]. split; [reflexivity|]. split; [exact Hpre|]. split.
  - exists (bounds ringInA), A. repeat split. left; reflexivity.
  - exact (proj1 (intersects_multipolygon_failed_ring
                    intersectsA [ringOutside] [ringInA] ringBroken _
                    Hne eq_refl Hpre)).
Defined.

Lemma intersects_keys_union_witness :
  queryTokensGeo QueryTypeIntersects (TPolygon ringInA) float_zero
  = Return (Ok (keysWithin ++ keysContains,
                mkGeoQueryData None [bounds ringInA] None QueryTypeIntersects))
  /\ queryTokensGeo QueryTypeWithin (TPolygon ringInA) float_zero
     = Return (Ok (keysWithin,
                   mkGeoQueryData None [bounds ringInA] None QueryTypeWithin))
  /\ queryTokensGeo QueryTypeContains (TPolygon ringInA) float_zero
     = Return (Ok (keysContains,
                   mkGeoQueryData None [bounds ringInA] None QueryTypeContains))
  /\ forall t,
       In t (keysWithin ++ keysContains) <-> In t keysWithin \/ In t keysContains.
Proof.
  assert (Hi : queryTokensGeo QueryTypeIntersects (TPolygon ringInA) float_zero
               = Return (Ok (keysWithin ++ keysContains,
                             mkGeoQueryData None [bounds ringInA] None
                               QueryTypeIntersects)))
    by reflexivity.
  destruct (intersects_keys_union _ _ _ _ Hi)
    as (parents & cover & qw & qc & Hc & Hw & Hk & Hall).
  vm_compute in Hc. injection Hc as <- <-.
  split; [exact Hi|]. split; [reflexivity|]. split; [reflexivity|].
  exact Hall.
Defined.

Lemma nearCentre_generated : generated nearCentre.
Proof.
  right; right. exists ["NEAR"; "loc"; "[5,5]"; "1000"], ["p/1000"].
  reflexivity.
Defined.

Lemma generated_filter_one_discriminant_witness :
  generated nearCentre /\ QueryFilterOk nearCentre.
Proof.
  split; [exact nearCentre_generated|].
  exact (proj1 (generated_filter_one_discriminant _ nearCentre_generated)).
Defined.

Lemma evaluator_total_on_generated_witness :
  generated nearCentre
  /\ (exists b, MatchesFilter nearCentre pointNearby = Return b)
  /\ MatchesFilter nearCentre lineString = Return false.
Proof.
  split; [exact nearCentre_generated|]. split.
  - destruct (evaluator_total_on_generated nearCentre pointNearby
                nearCentre_generated) as (b & Hb & _).
    exists b. exact Hb.
  - destruct (evaluator_total_on_generated nearCentre lineString
                nearCentre_generated) as (b & Hb & Hother).
    rewrite Hb. f_equal. exact (Hother tt eq_refl).
Defined.

Lemma geometry_requirements_enforced_witness :
  queryShape centre = Ok ([], Some (5, 5)%Z)
  /\ queryShape (TPolygon ringInA) = Ok ([bounds ringInA], None)
  /\ queryTokensGeo QueryTypeWithin centre float_zero
     = Return (Err (Errorf "Require a polygon for within query" []))
  /\ queryTokensGeo QueryTypeIntersects centre float_zero
     = Return (Err (Errorf "Require a polygon for intersects query" []))
  /\ queryTokensGeo QueryTypeNear (TPolygon ringInA) float_zero
     = Return (Err (Errorf "Cannot use a polygon in a near query" []))
  /\ queryTokensGeo x07 (TPolygon ringInA) float_zero
     = Return (Err (Errorf "Unknown query type" [])).
Proof.
  assert (Hpoint : queryShape centre = Ok ([], Some (5, 5)%Z))
    by reflexivity.
  assert (Hring : queryShape (TPolygon ringInA) = Ok ([bounds ringInA], None))
    by reflexivity.
  assert (Hsome : Some (5, 5)%Z <> @None (Z * Z)) by discriminate.
  assert (Hloops : [bounds ringInA] <> []) by discriminate.
  assert (H0 : x07 <> QueryTypeWithin) by discriminate.
  assert (H1 : x07 <> QueryTypeContains) by discriminate.
  assert (H2 : x07 <> QueryTypeIntersects) by discriminate.
  assert (H3 : x07 <> QueryTypeNear) by discriminate.
  destruct (geometry_requirements_enforced x07 _ float_zero _ _ Hpoint)
    as (Hreq & _ & _).
  destruct (Hreq eq_refl Hsome) as ((e1 & Hr1 & He1) & (e2 & Hr2 & He2)).
  destruct (geometry_requirements_enforced x07 _ float_zero _ _ Hring)
    as (_ & Hnear & Hunknown).
  destruct (Hnear Hloops) as (e3 & Hr3 & He3).
  destruct (Hunknown (or_introl Hloops) H0 H1 H2 H3) as (e4 & Hr4 & He4).
  vm_compute in He1, He2, He3, He4. subst e1 e2 e3 e4.
  split; [exact Hpoint|]. split; [exact Hring|].
  split; [exact Hr1|]. split; [exact Hr2|]. split; [exact Hr3|exact Hr4].
Defined.

Lemma near_rejects_nonpositive_distance_witness :
  float_le float_zero float_zero = true
  /\ ParseFloat "0" = inl float_zero
  /\ (exists e,
        GetGeoTokens ["near"; "loc"; "[5,5]"; "0"] = Return (Err e))
  /\ GetGeoTokens ["near"; "loc"; "[5,5]"; "far"]
     = Return (Err (Wrapf "invalid syntax"
                       "Error while converting distance to float")).
Proof.
  destruct (near_rejects_nonpositive_distance float_zero eq_refl)
    as (_ & _ & Hget & Hparse).
  split; [reflexivity|]. split; [reflexivity|]. split.
  - exact (Hget ["near"; "loc"; "[5,5]"; "0"] (5, 5)%Z
             eq_refl eq_refl eq_refl eq_refl).
  - exact (Hparse ["near"; "loc"; "[5,5]"; "far"] "invalid syntax"
             eq_refl eq_refl eq_refl).
Defined.

(** The zero value of [GeoQueryData], which token generation never returns,
    is no query filter: the scan of one stored point ends at the assertion
    of [isWithin]. *)
Lemma FilterGeoUids_zero_value_example :
  ~ generated zeroValue
  /\ FilterGeoUids [1%N] [mkTaskValue [x01; x05; x05] 5] zeroValue
     = Fatal "At least a point, loop or cap should be defined.".
Proof.
  split; [|reflexivity].
  intros Hgen. pose proof (generated_QueryFilterOk _ Hgen) as Hok.
  inversion Hok.
Qed.

Lemma withinP_generated : generated withinP.
Proof.
  left. exists QueryTypeWithin, (@TPolygon types ringP), float_zero,
    ["p/1000"; "p/1000"; "p/1000"; "p/1000"].
  reflexivity.
Defined.

Lemma FilterGeoUids_keeps_matching_witness :
  List.length [1; 2; 3]%N = List.length stored
  /\ generated withinP
  /\ FilterGeoUids [1; 2; 3]%N stored withinP = Return [1%N].
Proof.
  split; [reflexivity|]. split; [exact withinP_generated|].
  destruct (FilterGeoUids_keeps_matching [1; 2; 3]%N stored withinP
              eq_refl (or_introl withinP_generated)) as (Hret & _).
  rewrite Hret. reflexivity.
Defined.

End Instances.

(** * Further properties of the token generator *)

Section MoreTokens.
Context {GT : GeoTypes} {GL : GeoLib}.

Lemma float_lt_le d : float_lt d float_zero = true -> float_le d float_zero = true.
Proof.
  unfold float_lt, float_le, SFltb, SFleb.
  destruct (SFcompare d float_zero) as [[| |]|]; congruence.
Qed.

Lemma float_not_le_not_lt d :
  float_le d float_zero = false -> float_lt d float_zero = false.
Proof.
  intros Hle. destruct (float_lt d float_zero) eqn:Hlt; [|reflexivity].
  apply float_lt_le in Hlt. congruence.
Qed.

Lemma GetGeoTokens_long (funcArgs : list string) :
  1 < List.length funcArgs ->
  Nat.ltb 1 (List.length funcArgs) = true.
Proof. intros Hlen. now apply Nat.ltb_lt. Qed.

(** X1.  [IsGeoFunc] on the lowered name tells whether [GetGeoTokens] knows the
    function: a name it refuses is answered with the invalid-function error,
    and keys are only ever returned for a name it accepts. *)
Theorem IsGeoFunc_guards_GetGeoTokens (funcArgs : list string) :
  1 < List.length funcArgs ->
  (IsGeoFunc (ToLower (arg funcArgs 0)) = false ->
   GetGeoTokens funcArgs = Return (Err (Errorf "Invalid geo function" [])))
  /\ (forall keys q,
        GetGeoTokens funcArgs = Return (Ok (keys, q)) ->
        IsGeoFunc (ToLower (arg funcArgs 0)) = true).
Proof.
  intros Hlen.
  assert (Hno : IsGeoFunc (ToLower (arg funcArgs 0)) = false ->
                GetGeoTokens funcArgs
                = Return (Err (Errorf "Invalid geo function" []))).
  { unfold IsGeoFunc, GetGeoTokens. rewrite (GetGeoTokens_long _ Hlen). simpl.
    destruct (String.eqb _ "near"); [discriminate|].
    destruct (String.eqb _ "contains") eqn:Ec; [discriminate|].
    destruct (String.eqb _ "within"); [discriminate|].
    destruct (String.eqb _ "intersects"); [discriminate|]. reflexivity. }
  split; [exact Hno|].
  intros keys q Hok.
  destruct (IsGeoFunc (ToLower (arg funcArgs 0))); [reflexivity|].
  rewrite (Hno eq_refl) in Hok. discriminate Hok.
Qed.

Lemma geoTokensNoDistance_count qt format funcArgs :
  List.length funcArgs <> 3 ->
  geoTokensNoDistance qt format funcArgs
  = Return (Err (Errorf format [ArgInt (List.length funcArgs)])).
Proof.
  intros Hn. unfold geoTokensNoDistance.
  apply Nat.eqb_neq in Hn. now rewrite Hn.
Qed.

(** X2.  The number of arguments is checked before anything is parsed: fewer than
    two arguments end the process at the assertion; a near call with other
    than four, and a within, contains or intersects call with other than
    three arguments, return the error of that function with the count. *)
Theorem GetGeoTokens_argument_count (funcArgs : list string) :
  (List.length funcArgs <= 1 -> GetGeoTokens funcArgs = Fatal "Invalid function")
  /\ (1 < List.length funcArgs ->
      (ToLower (arg funcArgs 0) = "near" -> List.length funcArgs <> 4 ->
       GetGeoTokens funcArgs
       = Return (Err (Errorf "near function requires 2 arguments, but got %d"
                        [ArgInt (List.length funcArgs)])))
      /\ (ToLower (arg funcArgs 0) = "within" -> List.length funcArgs <> 3 ->
          GetGeoTokens funcArgs
          = Return (Err (Errorf "within function requires 1 arguments, but got %d"
                           [ArgInt (List.length funcArgs)])))
      /\ (ToLower (arg funcArgs 0) = "contains" -> List.length funcArgs <> 3 ->
          GetGeoTokens funcArgs
          = Return (Err (Errorf "contains function requires 1 arguments, but got %d"
                           [ArgInt (List.length funcArgs)])))
      /\ (ToLower (arg funcArgs 0) = "intersects" -> List.length funcArgs <> 3 ->
          GetGeoTokens funcArgs
          = Return (Err (Errorf "intersects function requires 1 arguments, but got %d"
                           [ArgInt (List.length funcArgs)])))).
Proof.
  split.
  - intros Hshort. unfold GetGeoTokens.
    assert (Hlt : Nat.ltb 1 (List.length funcArgs) = false)
      by (apply Nat.ltb_ge; exact Hshort).
    now rewrite Hlt.
  - intros Hlen. unfold GetGeoTokens. rewrite (GetGeoTokens_long _ Hlen). simpl.
    repeat split; intros Hname Hn; rewrite Hname; simpl.
    + apply Nat.eqb_neq in Hn. now rewrite Hn.
    + now apply geoTokensNoDistance_count.
    + now apply geoTokensNoDistance_count.
    + now apply geoTokensNoDistance_count.
Qed.

(** X3.  A near call with a negative distance is refused for the distance before
    the geometry literal is read; with a distance of zero and a point whose
    cells derive it is refused by [nearQueryKeys]. *)
Theorem near_distance_errors (funcArgs : list string) (d : float64) :
  ToLower (arg funcArgs 0) = "near" ->
  List.length funcArgs = 4 ->
  ParseFloat (arg funcArgs 3) = inl d ->
  (float_lt d float_zero = true ->
   GetGeoTokens funcArgs = Return (Err (Errorf "Distance cannot be negative" [])))
  /\ (float_lt d float_zero = false -> float_le d float_zero = true ->
      forall v pc,
        convertToGeom (arg funcArgs 2) = Ok (TPoint v) ->
        indexCells (TPoint v) = Ok pc ->
        GetGeoTokens funcArgs
        = Return (Err (Errorf "Invalid max distance specified for a near query" []))).
Proof.
  intros Hname Hlen Hparse. unfold GetGeoTokens.
  rewrite Hlen, Hname, Hparse. simpl. split.
  - intros Hlt. now rewrite Hlt.
  - intros Hlt Hle v [parents cover] Hgeom Hc. rewrite Hlt, Hgeom.
    unfold queryTokensGeo. simpl. rewrite Hc.
    now rewrite (nearQueryKeys_nonpositive _ _ Hle).
Qed.

(** X4.  A near call on a point whose cells derive, with a distance that is not
    [<= 0], returns the parent-tagged keys of the cover of the cap around the
    point and a filter holding that cap and nothing else.  The number that is
    not a number is such a distance: [nearQueryKeys] does not refuse it. *)
Theorem GetGeoTokens_near_success
    (funcArgs : list string) (d : float64) (v : geomPoint)
    (pc : s2CellUnion * s2CellUnion) :
  ToLower (arg funcArgs 0) = "near" ->
  List.length funcArgs = 4 ->
  ParseFloat (arg funcArgs 3) = inl d ->
  float_le d float_zero = false ->
  convertToGeom (arg funcArgs 2) = Ok (TPoint v) ->
  indexCells (TPoint v) = Ok pc ->
  GetGeoTokens funcArgs
  = Return (Ok (createTokens
                  (indexCellsForCap
                     (CapFromCenterAngle (pointFromPoint v) (EarthAngle d)))
                  parentPrefix,
                mkGeoQueryData None []
                  (Some (CapFromCenterAngle (pointFromPoint v) (EarthAngle d)))
                  QueryTypeNear))
  /\ float_le S754_nan float_zero = false.
Proof.
  intros Hname Hlen Hparse Hle Hgeom Hc. split; [|reflexivity].
  unfold GetGeoTokens. rewrite Hlen, Hname, Hparse. simpl.
  rewrite (float_not_le_not_lt _ Hle), Hgeom.
  unfold queryTokensGeo. simpl. rewrite Hc. destruct pc as [parents cover].
  simpl. unfold nearQueryKeys. now rewrite Hle.
Qed.

Lemma queryTokensGeo_kind qt g d keys q :
  queryTokensGeo qt g d = Return (Ok (keys, q)) -> qtype q = qt.
Proof.
  intros Hok.
  destruct (queryTokensGeo_ok_inv _ _ _ _ _ Hok)
    as (ls & p & parents & cover & Hs & Ha & Hc).
  rewrite (queryTokensGeo_switch qt g d ls p parents cover Hs Ha Hc) in Hok.
  destruct (Byte.eqb qt QueryTypeWithin).
  { destruct (Nat.eqb (List.length ls) 0); [discriminate|].
    now injection Hok as _ <-. }
  destruct (Byte.eqb qt QueryTypeContains); [now injection Hok as _ <-|].
  destruct (Byte.eqb qt QueryTypeNear) eqn:E3.
  { apply byte_dec_bl in E3. subst qt.
    destruct (nonempty ls); [discriminate|]. destruct p; [|discriminate].
    unfold nearQueryKeys in Hok.
    destruct (float_le d float_zero); [discriminate|].
    now injection Hok as _ <-. }
  destruct (Byte.eqb qt QueryTypeIntersects); [|discriminate].
  destruct (Nat.eqb (List.length ls) 0); [discriminate|].
  now injection Hok as _ <-.
Qed.

Lemma geoTokensNoDistance_kind qt format funcArgs keys q :
  geoTokensNoDistance qt format funcArgs = Return (Ok (keys, q)) ->
  qtype q = qt /\ List.length funcArgs = 3.
Proof.
  unfold geoTokensNoDistance.
  destruct (Nat.eqb (List.length funcArgs) 3) eqn:E; [|discriminate]. simpl.
  destruct (convertToGeom _) as [g|]; [|discriminate].
  intros Hq. split; [exact (queryTokensGeo_kind _ _ _ _ _ Hq)|].
  now apply Nat.eqb_eq.
Qed.

(** X5.  The filter remembers the kind it was built for: [queryTokensGeo] returns
    a filter of the kind it was called with, and [GetGeoTokens] one of the
    kind its function name stands for, on the number of arguments of that
    function. *)
Theorem generated_filter_kind :
  (forall qt g d keys q,
     queryTokensGeo qt g d = Return (Ok (keys, q)) -> qtype q = qt)
  /\ (forall funcArgs keys q,
        GetGeoTokens funcArgs = Return (Ok (keys, q)) ->
        (ToLower (arg funcArgs 0) = "near"
         /\ qtype q = QueryTypeNear /\ List.length funcArgs = 4)
        \/ (ToLower (arg funcArgs 0) = "within"
            /\ qtype q = QueryTypeWithin /\ List.length funcArgs = 3)
        \/ (ToLower (arg funcArgs 0) = "contains"
            /\ qtype q = QueryTypeContains /\ List.length funcArgs = 3)
        \/ (ToLower (arg funcArgs 0) = "intersects"
            /\ qtype q = QueryTypeIntersects /\ List.length funcArgs = 3)).
Proof.
  split; [exact queryTokensGeo_kind|].
  intros funcArgs keys q. unfold GetGeoTokens.
  destruct (Nat.ltb 1 (List.length funcArgs)); [|discriminate]. simpl.
  destruct (String.eqb _ "near") eqn:E0.
  { apply String.eqb_eq in E0.
    destruct (Nat.eqb (List.length funcArgs) 4) eqn:E; [|discriminate]. simpl.
    destruct (ParseFloat _) as [maxDist|]; [|discriminate].
    destruct (float_lt maxDist float_zero); [discriminate|].
    destruct (convertToGeom _) as [g|]; [|discriminate].
    intros Hq. left. split; [exact E0|].
    split; [exact (queryTokensGeo_kind _ _ _ _ _ Hq)|now apply Nat.eqb_eq]. }
  destruct (String.eqb _ "within") eqn:E1.
  { apply String.eqb_eq in E1. intros Hq.
    apply geoTokensNoDistance_kind in Hq. right; left. tauto. }
  destruct (String.eqb _ "contains") eqn:E2.
  { apply String.eqb_eq in E2. intros Hq.
    apply geoTokensNoDistance_kind in Hq. right; right; left. tauto. }
  destruct (String.eqb _ "intersects") eqn:E3; [|discriminate].
  apply String.eqb_eq in E3. intros Hq.
  apply geoTokensNoDistance_kind in Hq. right; right; right. tauto.
Qed.

(** X6.  The distance is only used for a near query: for every other kind the
    call does not depend on it. *)
Theorem distance_only_used_for_near
    (qt : QueryType) (g : geomT) (d d' : float64) :
  qt <> QueryTypeNear ->
  queryTokensGeo qt g d = queryTokensGeo qt g d'.
Proof.
  intros Hqt. unfold queryTokensGeo.
  destruct (queryShape g) as [[ls p]|]; [|reflexivity]. simpl.
  destruct (nonempty ls || notnil p); [|reflexivity]. simpl.
  destruct (indexCells g) as [[parents cover]|]; [|reflexivity].
  now rewrite (eqb_neq _ _ Hqt).
Qed.

End MoreTokens.

(** * Further properties of the query region *)

Section Regions.
Context {GT : GeoTypes} {GL : GeoLib}.

Lemma appendLoops_failure pre bad post e :
  Forall converts pre ->
  loopFromPolygon bad = Err e ->
  forall acc, appendLoops (pre ++ bad :: post) acc = Err e.
Proof.
  intros Hpre Hbad.
  induction Hpre as [|a pre (la & Ha) _ IH]; intros acc; simpl.
  - now rewrite Hbad.
  - rewrite Ha. apply IH.
Qed.

Lemma appendLoops_ok ps :
  forall acc ls,
    appendLoops ps acc = Ok ls ->
    exists more,
      ls = acc ++ more
      /\ Forall2 (fun p l => loopFromPolygon p = Ok l) ps more.
Proof.
  induction ps as [|p rest IH]; intros acc ls; simpl.
  - intros [= <-]. exists []. split; [now rewrite app_nil_r|constructor].
  - destruct (loopFromPolygon p) as [l|] eqn:Hp; [|discriminate].
    intros Hrest. destruct (IH _ _ Hrest) as (more & -> & Hall).
    exists (l :: more). split; [now rewrite <- app_assoc|].
    now constructor.
Qed.

(** X7.  A ring that does not convert refuses the query, whatever its kind: the
    call returns the error of the first such ring of a multi-polygon, or of
    the ring of a polygon, before the cells are derived and before the kind
    is looked at. *)
Theorem first_failing_ring_rejects_query
    (qt : QueryType) (d : float64) (pre post : list geomPolygon)
    (bad : geomPolygon) (e : error) :
  Forall converts pre ->
  loopFromPolygon bad = Err e ->
  queryTokensGeo qt (TMultiPolygon (pre ++ bad :: post)) d = Return (Err e)
  /\ queryTokensGeo qt (TPolygon bad) d = Return (Err e).
Proof.
  intros Hpre Hbad. unfold queryTokensGeo. simpl.
  rewrite (appendLoops_failure pre bad post e Hpre Hbad), Hbad.
  split; reflexivity.
Qed.

(** X8.  A query on a multi-polygon that returns keys returns a filter with one
    loop for each polygon, in the order of the polygons, and neither a point
    nor a cap; the multi-polygon is not empty. *)
Theorem filter_loops_follow_polygons
    (qt : QueryType) (ps : list geomPolygon) (d : float64)
    (keys : list string) (q : GeoQueryData) :
  queryTokensGeo qt (TMultiPolygon ps) d = Return (Ok (keys, q)) ->
  Forall2 (fun p l => loopFromPolygon p = Ok l) ps (loops q)
  /\ pt q = None /\ cap q = None /\ ps <> [].
Proof.
  intros Hok.
  destruct (queryTokensGeo_ok_inv _ _ _ _ _ Hok)
    as (ls & p & parents & cover & Hs & Ha & Hc).
  rewrite (queryTokensGeo_switch qt _ d ls p parents cover Hs Ha Hc) in Hok.
  simpl in Hs. destruct (appendLoops ps []) as [ls0|] eqn:Happ; [|discriminate].
  injection Hs as -> <-.
  destruct (appendLoops_ok _ _ _ Happ) as (more & Hmore & Hall).
  simpl in Hmore. subst more.
  rewrite orb_false_r in Ha.
  assert (Hps : ps <> []).
  { intros ->. inversion Hall; subst. discriminate Ha. }
  assert (Hlen : Nat.eqb (List.length ls) 0 = false)
    by (destruct ls; [discriminate Ha|reflexivity]).
  rewrite Ha, Hlen in Hok.
  destruct (Byte.eqb qt QueryTypeWithin); [now injection Hok as _ <-|].
  destruct (Byte.eqb qt QueryTypeContains); [now injection Hok as _ <-|].
  destruct (Byte.eqb qt QueryTypeNear); [discriminate|].
  destruct (Byte.eqb qt QueryTypeIntersects); [|discriminate].
  now injection Hok as _ <-.
Qed.

Lemma GetGeoTokens_empty_no_distance qt format funcArgs :
  List.length funcArgs = 3 ->
  convertToGeom (arg funcArgs 2) = Ok (TMultiPolygon []) ->
  geoTokensNoDistance qt format funcArgs
  = Fatal "We should have a point or a loop.".
Proof.
  intros Hlen Hgeom. unfold geoTokensNoDistance. now rewrite Hlen, Hgeom.
Qed.

(** X9.  A multi-polygon without polygons is not refused with an error: the call
    ends the process at the assertion, whatever the kind, and so does a
    within, contains or intersects call of [GetGeoTokens] whose literal reads
    as one.  A geometry that is neither a point, a polygon nor a
    multi-polygon is refused with an error. *)
Theorem degenerate_query_regions (qt : QueryType) (d : float64) :
  queryTokensGeo qt (TMultiPolygon []) d
  = Fatal "We should have a point or a loop."
  /\ (forall v,
        queryTokensGeo qt (TOther v) d
        = Return (Err (Errorf "Cannot query using a geometry of type %T"
                         [ArgType v])))
  /\ (forall funcArgs,
        List.length funcArgs = 3 ->
        convertToGeom (arg funcArgs 2) = Ok (TMultiPolygon []) ->
        IsGeoFunc (ToLower (arg funcArgs 0)) = true ->
        ToLower (arg funcArgs 0) <> "near" ->
        GetGeoTokens funcArgs = Fatal "We should have a point or a loop.").
Proof.
  split; [reflexivity|]. split; [reflexivity|].
  intros funcArgs Hlen Hgeom Hgeo Hnear. unfold GetGeoTokens.
  rewrite Hlen. simpl. unfold IsGeoFunc in Hgeo.
  apply String.eqb_neq in Hnear. rewrite Hnear in *. simpl in Hgeo.
  destruct (String.eqb _ "within");
    [now apply GetGeoTokens_empty_no_distance|].
  destruct (String.eqb _ "contains");
    [now apply GetGeoTokens_empty_no_distance|].
  destruct (String.eqb _ "intersects");
    [now apply GetGeoTokens_empty_no_distance|discriminate].
Qed.

(** X10.  A polygon queried against itself: the within and the contains filter
    built from a polygon answer that polygon with what [Contains] says of its
    loop and itself, the intersects filter with what [Intersects] says. *)
Theorem polygon_query_on_itself
    (v : geomPolygon) (l : s2Loop) (parents cover : s2CellUnion)
    (d : float64) :
  loopFromPolygon v = Ok l ->
  indexCells (TPolygon v) = Ok (parents, cover) ->
  exists qw qc qi,
    queryTokensGeo QueryTypeWithin (TPolygon v) d
    = Return (Ok (createTokens cover parentPrefix, qw))
    /\ MatchesFilter qw (TPolygon v) = Return (Contains l l)
    /\ queryTokensGeo QueryTypeContains (TPolygon v) d
       = Return (Ok (createTokens parents coverPrefix, qc))
    /\ MatchesFilter qc (TPolygon v) = Return (Contains l l)
    /\ queryTokensGeo QueryTypeIntersects (TPolygon v) d
       = Return (Ok (parentCoverTokens parents cover, qi))
    /\ MatchesFilter qi (TPolygon v) = Return (Intersects l l).
Proof.
  intros Hl Hc.
  assert (Hs : queryShape (TPolygon v) = Ok ([l], None))
    by (simpl; now rewrite Hl).
  assert (Ha : nonempty [l] || notnil (@None s2Point) = true) by reflexivity.
  exists (mkGeoQueryData None [l] None QueryTypeWithin),
    (mkGeoQueryData None [l] None QueryTypeContains),
    (mkGeoQueryData None [l] None QueryTypeIntersects).
  rewrite !(queryTokensGeo_switch _ _ d [l] None parents cover Hs Ha Hc).
  repeat split.
  - unfold MatchesFilter, isWithin. simpl. rewrite Hl. simpl.
    now rewrite orb_false_r.
  - unfold MatchesFilter, contains. simpl. rewrite Hl. simpl.
    now rewrite andb_true_r.
  - unfold MatchesFilter, intersects. simpl. rewrite Hl. simpl.
    now rewrite orb_false_r.
Qed.

End Regions.

(** * Further properties of the evaluator *)

Section MoreEvaluator.
Context {GT : GeoTypes} {GL : GeoLib}.

Lemma isWithin_singleton q v :
  isWithin q (TPolygon v) = isWithin q (TMultiPolygon [v]).
Proof.
  unfold isWithin.
  destruct (notnil (pt q) || nonempty (loops q) || notnil (cap q));
    [|reflexivity].
  simpl. destruct (loopFromPolygon v) as [l|];
    destruct (nonempty (loops q)); destruct (cap q); try reflexivity.
  - rewrite loopWithinMultiloops_existsb. now destruct (existsb _ (loops q)).
  - rewrite loopWithinMultiloops_existsb. now destruct (existsb _ (loops q)).
  - now destruct (withinCapPolygon l s).
Qed.

Lemma forallb_constant_false {A : Type} (s : list A) :
  s <> [] -> forallb (fun _ => false) s = false.
Proof. destruct s; [congruence|reflexivity]. Qed.

Lemma forallb_same {A : Type} (f f' : A -> bool) (s : list A) :
  (forall x, f x = f' x) -> forallb f s = forallb f' s.
Proof.
  intros Hsame. induction s as [|x s IH]; simpl; [reflexivity|].
  now rewrite Hsame, IH.
Qed.

Lemma contains_singleton q v :
  pt q = None \/ loops q = [] ->
  contains q (TPolygon v) = contains q (TMultiPolygon [v]).
Proof.
  intros Hone. unfold contains.
  destruct (notnil (pt q) || nonempty (loops q)) eqn:Ha; [|reflexivity].
  simpl. destruct (pt q) as [p|] eqn:Hp.
  - destruct Hone as [Hnone| ->]; [discriminate|].
    destruct (loopFromPolygon v) as [l|]; [|reflexivity].
    now destruct (Loop_ContainsPoint l p).
  - simpl in Ha. rewrite Ha.
    destruct (loopFromPolygon v) as [l|].
    + f_equal. apply forallb_same. intros f. now destruct (Contains l f).
    + f_equal. symmetry. apply forallb_constant_false.
      intros Hnil. rewrite Hnil in Ha. discriminate Ha.
Qed.

Lemma intersects_singleton q v :
  intersects q (TPolygon v) = intersects q (TMultiPolygon [v]).
Proof.
  unfold intersects. destruct (nonempty (loops q)); [|reflexivity]. simpl.
  destruct (loopFromPolygon v) as [l|]; [|reflexivity].
  now destruct (existsb _ (loops q)).
Qed.

(** X11.  A polygon and the multi-polygon made of that polygon alone are answered
    alike, by every filter that does not hold a point and loops at once. *)
Theorem polygon_as_singleton_multipolygon (q : GeoQueryData) (v : geomPolygon) :
  pt q = None \/ loops q = [] ->
  MatchesFilter q (TPolygon v) = MatchesFilter q (TMultiPolygon [v]).
Proof.
  intros Hone. unfold MatchesFilter.
  destruct (Byte.eqb (qtype q) QueryTypeWithin); [apply isWithin_singleton|].
  destruct (Byte.eqb (qtype q) QueryTypeContains);
    [now apply contains_singleton|].
  destruct (Byte.eqb (qtype q) QueryTypeIntersects);
    [apply intersects_singleton|].
  destruct (Byte.eqb (qtype q) QueryTypeNear); [|reflexivity].
  destruct (cap q); [apply isWithin_singleton|reflexivity].
Qed.

(** X12.  A multi-polygon without polygons is within every filter with loops or a
    cap, near every cap, and neither contains nor intersects anything. *)
Theorem empty_multipolygon_candidate (q : GeoQueryData) :
  assertionsHold q = true ->
  (qtype q = QueryTypeWithin ->
   MatchesFilter q (TMultiPolygon [])
   = Return (nonempty (loops q) || notnil (cap q)))
  /\ (qtype q = QueryTypeNear ->
      MatchesFilter q (TMultiPolygon []) = Return (notnil (cap q)))
  /\ (qtype q = QueryTypeContains ->
      MatchesFilter q (TMultiPolygon []) = Return false)
  /\ (qtype q = QueryTypeIntersects ->
      MatchesFilter q (TMultiPolygon []) = Return false).
Proof.
  unfold assertionsHold, MatchesFilter. intros Ha.
  repeat split; intros Hq; rewrite Hq in *; simpl in *.
  - unfold isWithin. rewrite Ha. simpl.
    destruct (nonempty (loops q)); [reflexivity|]. now destruct (cap q).
  - destruct (cap q) eqn:Hc; [|reflexivity].
    unfold isWithin. rewrite Hc, orb_true_r. simpl.
    now destruct (nonempty (loops q)).
  - unfold contains. rewrite Ha. simpl.
    destruct (pt q);
      (destruct (nonempty (loops q)) eqn:Hl; [|reflexivity];
       f_equal; apply forallb_constant_false;
       intros Hnil; rewrite Hnil in Hl; discriminate Hl).
  - unfold intersects. now rewrite Ha.
Qed.

Lemma existsb_incl {A : Type} (f : A -> bool) (s s' : list A) :
  incl s s' -> existsb f s = true -> existsb f s' = true.
Proof.
  intros Hin Hs. apply existsb_exists in Hs. destruct Hs as (x & Hx & Hf).
  apply existsb_exists. exists x. split; [now apply Hin|exact Hf].
Qed.

Lemma forallb_incl {A : Type} (f : A -> bool) (s s' : list A) :
  incl s s' -> forallb f s' = true -> forallb f s = true.
Proof.
  intros Hin Hs. rewrite forallb_forall in *. intros x Hx.
  apply Hs. now apply Hin.
Qed.

Lemma incl_nonempty {A : Type} (s s' : list A) :
  incl s s' -> nonempty s = true -> nonempty s' = true.
Proof.
  intros Hin. destruct s as [|x s]; [discriminate|]. intros _.
  destruct s' as [|y s']; [|reflexivity].
  destruct (Hin x (or_introl eq_refl)).
Qed.

Lemma withinLoopsEach_incl ps ls ls' :
  incl ls ls' ->
  withinLoopsEach ps ls = true -> withinLoopsEach ps ls' = true.
Proof.
  intros Hin. rewrite !withinLoopsEach_every, !everyOutcome_true.
  intros Hall r Hr. destruct (Hall r Hr) as (l & Hl & Ht).
  exists l. split; [exact Hl|].
  rewrite loopWithinMultiloops_existsb in *.
  exact (existsb_incl _ _ _ Hin Ht).
Qed.

Lemma intersectsEach_incl ps ls ls' :
  incl ls ls' ->
  intersectsEach ps ls = true -> intersectsEach ps ls' = true.
Proof.
  intros Hin. induction ps as [|p rest IH]; simpl; [discriminate|].
  destruct (loopFromPolygon p) as [l|]; [|discriminate].
  destruct (existsb (fun loop => Intersects l loop) ls) eqn:Hl.
  - intros _. now rewrite (existsb_incl _ _ _ Hin Hl).
  - intros Hrest. destruct (existsb _ ls'); [reflexivity|now apply IH].
Qed.

Lemma multiPolygonContainsLoop_all_incl ps ls ls' :
  incl ls ls' ->
  forallb (fun l => multiPolygonContainsLoop ps l) ls' = true ->
  forallb (fun l => multiPolygonContainsLoop ps l) ls = true.
Proof. apply forallb_incl. Qed.

(** X13.  More loops in the filter: a candidate that is within, or intersects, a
    set of loops is within, or intersects, every larger set; a candidate that
    contains a set of loops contains every smaller set that is not empty. *)
Theorem more_filter_loops (ls ls' : list s2Loop) (g : geomT) :
  incl ls ls' ->
  (MatchesFilter (mkGeoQueryData None ls None QueryTypeWithin) g = Return true ->
   MatchesFilter (mkGeoQueryData None ls' None QueryTypeWithin) g = Return true)
  /\ (MatchesFilter (mkGeoQueryData None ls None QueryTypeIntersects) g
      = Return true ->
      MatchesFilter (mkGeoQueryData None ls' None QueryTypeIntersects) g
      = Return true)
  /\ (ls <> [] ->
      MatchesFilter (mkGeoQueryData None ls' None QueryTypeContains) g
      = Return true ->
      MatchesFilter (mkGeoQueryData None ls None QueryTypeContains) g
      = Return true).
Proof.
  intros Hin. unfold MatchesFilter. simpl. split; [|split].
  - unfold isWithin. simpl.
    destruct (nonempty ls) eqn:Hl; [|discriminate].
    rewrite (incl_nonempty _ _ Hin Hl). simpl.
    destruct g as [v|v|v|v]; try discriminate.
    + intros [= Ht]. now rewrite (existsb_incl _ _ _ Hin Ht).
    + destruct (loopFromPolygon v); [|discriminate].
      intros [= Ht]. now rewrite (existsb_incl _ _ _ Hin Ht).
    + intros [= Ht]. now rewrite (withinLoopsEach_incl _ _ _ Hin Ht).
  - unfold intersects. simpl.
    destruct (nonempty ls) eqn:Hl; [|discriminate].
    rewrite (incl_nonempty _ _ Hin Hl). simpl.
    destruct g as [v|v|v|v]; try discriminate.
    + intros [= Ht]. now rewrite (existsb_incl _ _ _ Hin Ht).
    + destruct (loopFromPolygon v); [|discriminate].
      intros [= Ht]. now rewrite (existsb_incl _ _ _ Hin Ht).
    + intros [= Ht]. now rewrite (intersectsEach_incl _ _ _ Hin Ht).
  - intros Hne. unfold contains. simpl.
    rewrite (nonempty_true _ Hne).
    rewrite (incl_nonempty _ _ Hin (nonempty_true _ Hne)). simpl.
    destruct g as [v|v|v|v]; try discriminate.
    + destruct (loopFromPolygon v); [|discriminate].
      intros [= Ht]. now rewrite (forallb_incl _ _ _ Hin Ht).
    + intros [= Ht]. now rewrite (forallb_incl _ _ _ Hin Ht).
Qed.

Lemma everyOutcome_app test ps ps' :
  everyOutcome test (ps ++ ps')
  = everyOutcome test ps && everyOutcome test ps'.
Proof.
  induction ps as [|p rest IH]; simpl; [reflexivity|].
  destruct (loopFromPolygon p) as [l|]; [|reflexivity].
  destruct (test l); simpl; [exact IH|reflexivity].
Qed.

(** X14.  Against a filter with loops or a cap, the multi-polygon made of the
    polygons of two multi-polygons is within the filter exactly when both
    are. *)
Theorem within_concatenated_multipolygon
    (q : GeoQueryData) (ps ps' : list geomPolygon) :
  nonempty (loops q) || notnil (cap q) = true ->
  exists b b',
    isWithin q (TMultiPolygon ps) = Return b
    /\ isWithin q (TMultiPolygon ps') = Return b'
    /\ isWithin q (TMultiPolygon (ps ++ ps')) = Return (b && b').
Proof.
  intros Ha. unfold isWithin.
  assert (Hassert : notnil (pt q) || nonempty (loops q) || notnil (cap q) = true).
  { rewrite <- orb_assoc, Ha. apply orb_true_r. }
  rewrite Hassert. simpl.
  destruct (nonempty (loops q)).
  - do 2 eexists. repeat split.
    now rewrite !withinLoopsEach_every, everyOutcome_app.
  - simpl in Ha. destruct (cap q) as [c|]; [|discriminate].
    do 2 eexists. repeat split.
    now rewrite !withinCapEach_every, everyOutcome_app.
Qed.

(** X15.  A near filter, holding its cap only, answers a point with what the cap
    says of it, and a polygon or a multi-polygon with true exactly when
    every ring converts to a loop whose bounding cap the cap contains. *)
Theorem near_filter_answers (c : s2Cap) :
  (forall v,
     MatchesFilter (mkGeoQueryData None [] (Some c) QueryTypeNear) (TPoint v)
     = Return (Cap_ContainsPoint c (pointFromPoint v)))
  /\ (forall ps,
        exists b,
          MatchesFilter (mkGeoQueryData None [] (Some c) QueryTypeNear)
            (TMultiPolygon ps) = Return b
          /\ (b = true
              <-> forall r,
                    In r ps ->
                    ringPasses (fun l => Cap_Contains c (Loop_CapBound l)) r))
  /\ (forall v,
        exists b,
          MatchesFilter (mkGeoQueryData None [] (Some c) QueryTypeNear)
            (TPolygon v) = Return b
          /\ (b = true
              <-> ringPasses (fun l => Cap_Contains c (Loop_CapBound l)) v)).
Proof.
  split; [reflexivity|].
  assert (Hmulti : forall ps,
             exists b,
               MatchesFilter (mkGeoQueryData None [] (Some c) QueryTypeNear)
                 (TMultiPolygon ps) = Return b
               /\ (b = true
                   <-> forall r,
                         In r ps ->
                         ringPasses
                           (fun l => Cap_Contains c (Loop_CapBound l)) r)).
  { intros ps. exists (withinCapEach ps c). split; [reflexivity|].
    rewrite withinCapEach_every. apply everyOutcome_true. }
  split; [exact Hmulti|].
  intros v. destruct (Hmulti [v]) as (b & Hb & Hiff).
  exists b. split.
  - unfold MatchesFilter in *. simpl in *. now rewrite isWithin_singleton.
  - rewrite Hiff. split.
    + intros Hall. apply Hall. now left.
    + intros Hv r [<-|[]]. exact Hv.
Qed.

End MoreEvaluator.

(** * Further properties of the candidate scanner *)

Section MoreScanner.
Context {GT : GeoTypes} {GL : GeoLib}.

Lemma filterFrom_general q values :
  assertionsHold q = true \/ noneEvaluated values = true ->
  forall i uids rv,
    List.length (skipn i uids) = List.length values ->
    filterFrom i uids values q rv = Return (rv ++ kept q (skipn i uids) values).
Proof.
  induction values as [|v rest IH]; intros Hq i uids rv Hlen.
  - simpl. now rewrite kept_nil, app_nil_r.
  - simpl in Hlen. destruct (skipn_head uids i _ Hlen) as (u & Hu & Hs).
    assert (Hrest : List.length (skipn (S i) uids) = List.length rest).
    { rewrite Hs in Hlen. simpl in Hlen. now injection Hlen. }
    assert (Hq' : assertionsHold q = true \/ noneEvaluated rest = true).
    { destruct Hq as [Hq|Hq]; [now left|right].
      unfold noneEvaluated in *. simpl in Hq.
      now apply andb_true_iff in Hq. }
    assert (Hv : assertionsHold q = true \/ evaluated v = false).
    { destruct Hq as [Hq|Hq]; [now left|right].
      unfold noneEvaluated in Hq. simpl in Hq.
      apply andb_true_iff in Hq. now apply negb_true_iff. }
    specialize (IH Hq').
    rewrite Hs, kept_cons. unfold keeps. unfold evaluated in Hv. simpl.
    destruct (Nat.eqb (List.length (Val v)) 0); simpl; [now apply IH|].
    destruct (Z.eqb (ValType v) GeoID); simpl; [|now apply IH].
    destruct (Convert (Val v)) as [g|e]; [|now apply IH].
    destruct Hv as [Hv|Hv]; [|discriminate Hv].
    destruct (MatchesFilter_returns q g Hv) as (b & -> & _). simpl.
    destruct b; simpl; [|now apply IH].
    rewrite Hu, (IH (S i) uids (rv ++ [u]) Hrest), <- app_assoc.
    reflexivity.
Qed.

Lemma filterFrom_stops q values :
  assertionsHold q = false ->
  noneEvaluated values = false ->
  forall i uids rv, exists msg, filterFrom i uids values q rv = Fatal msg.
Proof.
  intros Hq. induction values as [|v rest IH]; [discriminate|].
  unfold noneEvaluated. simpl. intros Hnone i uids rv.
  unfold evaluated in Hnone.
  destruct (Nat.eqb (List.length (Val v)) 0); simpl in *; [now apply IH|].
  destruct (Z.eqb (ValType v) GeoID); simpl in *; [|now apply IH].
  destruct (Convert (Val v)) as [g|e]; simpl in *; [|now apply IH].
  destruct (MatchesFilter_stops q g Hq) as (msg & ->). simpl. eauto.
Qed.

Lemma FilterGeoUids_exact uids values q out :
  FilterGeoUids uids values q = Return out
  <-> List.length values = List.length uids
      /\ (assertionsHold q = true \/ noneEvaluated values = true)
      /\ out = kept q uids values.
Proof.
  unfold FilterGeoUids. split.
  - destruct (Nat.eqb (List.length values) (List.length uids)) eqn:Hlen;
      [|discriminate].
    apply Nat.eqb_eq in Hlen. simpl. intros Hret.
    assert (Hq : assertionsHold q = true \/ noneEvaluated values = true).
    { destruct (assertionsHold q) eqn:Ha; [now left|right].
      destruct (noneEvaluated values) eqn:Hn; [reflexivity|].
      destruct (filterFrom_stops q values Ha Hn 0 uids []) as (msg & Hmsg).
      rewrite Hmsg in Hret. discriminate Hret. }
    split; [exact Hlen|]. split; [exact Hq|].
    rewrite (filterFrom_general q values Hq 0 uids []) in Hret
      by (symmetry; exact Hlen).
    now injection Hret as <-.
  - intros (Hlen & Hq & ->). rewrite Hlen, Nat.eqb_refl. simpl.
    now rewrite (filterFrom_general q values Hq 0 uids [])
      by (symmetry; exact Hlen).
Qed.

(** X16.  When the scanner returns.  [FilterGeoUids] returns exactly when the two
    lists have the same length and either the assertion of the evaluator's
    path holds of the filter or no value gets as far as the evaluator (each
    is empty, of another type, or does not decode); what it returns is then
    the identifiers of the kept positions.  In every other case the process
    ends at an assertion. *)
Theorem FilterGeoUids_returns_iff
    (uids : list N) (values : list TaskValue) (q : GeoQueryData) (out : list N) :
  FilterGeoUids uids values q = Return out
  <-> List.length values = List.length uids
      /\ (assertionsHold q = true
          \/ forallb (fun v => negb (evaluated v)) values = true)
      /\ out = kept q uids values.
Proof. exact (FilterGeoUids_exact uids values q out). Qed.

Lemma noneEvaluated_app vs vs' :
  noneEvaluated (vs ++ vs') = noneEvaluated vs && noneEvaluated vs'.
Proof. unfold noneEvaluated. apply forallb_app. Qed.

(** X17.  The scanner treats the positions one by one: when it returns on two
    pairs of lists, it returns on their concatenation, with the
    concatenation of the two results. *)
Theorem FilterGeoUids_app
    (us us' : list N) (vs vs' : list TaskValue) (q : GeoQueryData)
    (out out' : list N) :
  FilterGeoUids us vs q = Return out ->
  FilterGeoUids us' vs' q = Return out' ->
  FilterGeoUids (us ++ us') (vs ++ vs') q = Return (out ++ out').
Proof.
  intros H1 H2.
  apply FilterGeoUids_exact in H1 as (Hl1 & Hq1 & ->).
  apply FilterGeoUids_exact in H2 as (Hl2 & Hq2 & ->).
  apply FilterGeoUids_exact. split; [|split].
  - rewrite !length_app. congruence.
  - destruct Hq1 as [Hq1|Hq1]; [now left|].
    destruct Hq2 as [Hq2|Hq2]; [now left|right].
    now rewrite noneEvaluated_app, Hq1, Hq2.
  - symmetry. apply kept_app. now symmetry.
Qed.

Lemma kept_same q q' us vs :
  (forall v, In v vs -> keeps q v = keeps q' v) ->
  kept q us vs = kept q' us vs.
Proof.
  revert vs. induction us as [|u us IH]; intros vs Hsame.
  - reflexivity.
  - destruct vs as [|v vs]; [now rewrite !kept_nil|].
    rewrite !kept_cons, (Hsame v (or_introl eq_refl)).
    rewrite (IH vs); [reflexivity|].
    intros w Hw. apply Hsame. now right.
Qed.

Lemma kept_none q us vs :
  (forall v, In v vs -> keeps q v = false) -> kept q us vs = [].
Proof.
  revert vs. induction us as [|u us IH]; intros vs Hnone.
  - reflexivity.
  - destruct vs as [|v vs]; [now rewrite kept_nil|].
    rewrite kept_cons, (Hnone v (or_introl eq_refl)).
    apply IH. intros w Hw. apply Hnone. now right.
Qed.

Lemma keeps_false_of_answer q v :
  (forall g, Convert (Val v) = Ok g -> MatchesFilter q g = Return false) ->
  keeps q v = false.
Proof.
  intros Hno. unfold keeps.
  destruct (Convert (Val v)) as [g|]; [|apply andb_false_r].
  rewrite (Hno g eq_refl). apply andb_false_r.
Qed.

Lemma knownKind_false qt :
  knownKind qt = false ->
  Byte.eqb qt QueryTypeWithin = false
  /\ Byte.eqb qt QueryTypeContains = false
  /\ Byte.eqb qt QueryTypeIntersects = false
  /\ Byte.eqb qt QueryTypeNear = false.
Proof.
  unfold knownKind. rewrite !orb_false_iff. tauto.
Qed.

(** X18.  A filter that matches nothing.  A filter whose kind is none of the four
    constants, like a near filter without its cap, answers false on every
    candidate, and the scanner returns no identifier, on lists of the same
    length, without stopping at an assertion. *)
Theorem filter_matching_nothing (q : GeoQueryData) :
  knownKind (qtype q) = false \/ (qtype q = QueryTypeNear /\ cap q = None) ->
  (forall g, MatchesFilter q g = Return false)
  /\ (forall uids values,
        List.length values = List.length uids ->
        FilterGeoUids uids values q = Return []).
Proof.
  intros Hq.
  assert (Hkind : assertionsHold q = true
                  /\ forall g, MatchesFilter q g = Return false).
  { unfold assertionsHold, MatchesFilter. destruct Hq as [Hq|[Hq Hc]].
    - destruct (knownKind_false _ Hq) as (-> & -> & -> & ->). now split.
    - rewrite Hq, Hc. now split. }
  destruct Hkind as (Ha & Hno). split; [exact Hno|].
  intros uids values Hlen. apply FilterGeoUids_exact.
  split; [exact Hlen|]. split; [now left|].
  symmetry. apply kept_none. intros v _.
  apply keeps_false_of_answer. intros g _. apply Hno.
Qed.

(** X19.  Only polygons contain: on stored values that decode to points, the scan
    with a contains filter returns no identifier. *)
Theorem contains_scan_of_points
    (uids : list N) (values : list TaskValue) (q : GeoQueryData) :
  qtype q = QueryTypeContains ->
  assertionsHold q = true ->
  List.length values = List.length uids ->
  storesPoints values ->
  FilterGeoUids uids values q = Return [].
Proof.
  intros Hq Ha Hlen Hpoints. apply FilterGeoUids_exact.
  split; [exact Hlen|]. split; [now left|].
  symmetry. apply kept_none. intros v Hv.
  apply keeps_false_of_answer. intros g Hg.
  destruct (Hpoints v g Hv Hg) as (p & ->).
  unfold assertionsHold in Ha. unfold MatchesFilter. rewrite Hq in *.
  simpl in *. unfold contains. now rewrite Ha.
Qed.

(** X20.  On stored values that decode to points, an intersects filter and the
    within filter with the same loops keep the same identifiers. *)
Theorem intersects_scan_of_points_is_within
    (uids : list N) (values : list TaskValue) (ls : list s2Loop) :
  ls <> [] ->
  List.length values = List.length uids ->
  storesPoints values ->
  FilterGeoUids uids values (mkGeoQueryData None ls None QueryTypeIntersects)
  = FilterGeoUids uids values (mkGeoQueryData None ls None QueryTypeWithin)
  /\ exists out,
       FilterGeoUids uids values (mkGeoQueryData None ls None QueryTypeWithin)
       = Return out.
Proof.
  intros Hne Hlen Hpoints.
  assert (Hi : assertionsHold (mkGeoQueryData None ls None QueryTypeIntersects)
               = true) by (simpl; now apply nonempty_true).
  assert (Hw : assertionsHold (mkGeoQueryData None ls None QueryTypeWithin)
               = true)
    by (unfold assertionsHold; simpl; now rewrite (nonempty_true _ Hne)).
  assert (Hwithin :
            FilterGeoUids uids values
              (mkGeoQueryData None ls None QueryTypeWithin)
            = Return (kept (mkGeoQueryData None ls None QueryTypeWithin)
                        uids values)).
  { apply FilterGeoUids_exact. split; [exact Hlen|]. split; [now left|].
    reflexivity. }
  split; [|eexists; exact Hwithin].
  rewrite Hwithin. apply FilterGeoUids_exact.
  split; [exact Hlen|]. split; [now left|].
  apply kept_same. intros v Hv. unfold keeps.
  destruct (Convert (Val v)) as [g|] eqn:Hg; [|reflexivity].
  destruct (Hpoints v g Hv Hg) as (p & ->).
  unfold MatchesFilter, isWithin, intersects. simpl.
  now rewrite (nonempty_true _ Hne).
Qed.

End MoreScanner.

(** ** The further properties at concrete inputs *)

Section MoreInstances.
Import Grid.

Lemma IsGeoFunc_guards_GetGeoTokens_witness :
  1 < List.length ["distance"; "loc"; "[5,5]"]
  /\ IsGeoFunc (ToLower "distance") = false
  /\ GetGeoTokens ["distance"; "loc"; "[5,5]"]
     = Return (Err (Errorf "Invalid geo function" [])).
Proof.
  assert (Hlen : 1 < List.length ["distance"; "loc"; "[5,5]"]) by (simpl; lia).
  split; [exact Hlen|]. split; [reflexivity|].
  exact (proj1 (IsGeoFunc_guards_GetGeoTokens _ Hlen) eq_refl).
Defined.

Lemma GetGeoTokens_argument_count_witness :
  GetGeoTokens ["near"] = Fatal "Invalid function"
  /\ GetGeoTokens ["near"; "loc"; "[5,5]"]
     = Return (Err (Errorf "near function requires 2 arguments, but got %d"
                      [ArgInt 3]))
  /\ GetGeoTokens ["Within"; "loc"; "[5,5]"; "-5"]
     = Return (Err (Errorf "within function requires 1 arguments, but got %d"
                      [ArgInt 4])).
Proof.
  split; [|split].
  - apply (proj1 (GetGeoTokens_argument_count ["near"])). simpl. lia.
  - destruct (GetGeoTokens_argument_count ["near"; "loc"; "[5,5]"])
      as (_ & Hcount).
    destruct Hcount as (Hnear & _); [simpl; lia|].
    apply Hnear; [reflexivity|discriminate].
  - destruct (GetGeoTokens_argument_count ["Within"; "loc"; "[5,5]"; "-5"])
      as (_ & Hcount).
    destruct Hcount as (_ & Hwithin & _); [simpl; lia|].
    apply Hwithin; [reflexivity|discriminate].
Defined.

Lemma near_distance_errors_witness :
  ParseFloat "-5" = inl minusFive
  /\ float_lt minusFive float_zero = true
  /\ GetGeoTokens ["near"; "loc"; "nowhere"; "-5"]
     = Return (Err (Errorf "Distance cannot be negative" []))
  /\ GetGeoTokens ["near"; "loc"; "[5,5]"; "0"]
     = Return (Err (Errorf "Invalid max distance specified for a near query" [])).
Proof.
  split; [reflexivity|]. split; [reflexivity|]. split.
  - exact (proj1 (near_distance_errors ["near"; "loc"; "nowhere"; "-5"]
                    minusFive eq_refl eq_refl eq_refl) eq_refl).
  - exact (proj2 (near_distance_errors ["near"; "loc"; "[5,5]"; "0"]
                    float_zero eq_refl eq_refl eq_refl)
             eq_refl eq_refl (5, 5)%Z _ eq_refl eq_refl).
Defined.

Lemma GetGeoTokens_near_success_witness :
  ParseFloat "1000" = inl thousand
  /\ float_le thousand float_zero = false
  /\ GetGeoTokens ["NEAR"; "loc"; "[5,5]"; "1000"]
     = Return (Ok (["p/1000"], nearCentre)).
Proof.
  split; [reflexivity|]. split; [reflexivity|].
  exact (proj1 (GetGeoTokens_near_success ["NEAR"; "loc"; "[5,5]"; "1000"]
                  thousand (5, 5)%Z _ eq_refl eq_refl eq_refl eq_refl eq_refl
                  eq_refl)).
Defined.

Lemma distance_only_used_for_near_witness :
  QueryTypeWithin <> QueryTypeNear
  /\ queryTokensGeo QueryTypeWithin (TPolygon ringInA) thousand
     = queryTokensGeo QueryTypeWithin (TPolygon ringInA) notANumber.
Proof.
  assert (Hqt : QueryTypeWithin <> QueryTypeNear) by discriminate.
  split; [exact Hqt|].
  exact (distance_only_used_for_near QueryTypeWithin (TPolygon ringInA)
           thousand notANumber Hqt).
Defined.

Lemma ringInA_converts : @converts types lib ringInA.
Proof. exists (bounds ringInA). reflexivity. Defined.

Lemma first_failing_ring_rejects_query_witness :
  Forall (@converts types lib) [ringInA]
  /\ queryTokensGeo QueryTypeContains
       (TMultiPolygon ([ringInA] ++ ringBroken :: [ringInB])) float_zero
     = Return (Err (Errorf "Can't convert ring with less than 4 pts" []))
  /\ queryTokensGeo QueryTypeWithin (TPolygon ringBroken) float_zero
     = Return (Err (Errorf "Can't convert ring with less than 4 pts" [])).
Proof.
  assert (Hpre : Forall (@converts types lib) [ringInA])
    by (constructor; [exact ringInA_converts|constructor]).
  split; [exact Hpre|]. split.
  - exact (proj1 (first_failing_ring_rejects_query QueryTypeContains float_zero
                    [ringInA] [ringInB] ringBroken _ Hpre eq_refl)).
  - exact (proj2 (first_failing_ring_rejects_query QueryTypeWithin float_zero
                    [ringInA] [ringInB] ringBroken _ Hpre eq_refl)).
Defined.

Lemma filter_loops_follow_polygons_witness :
  queryTokensGeo QueryTypeWithin (TMultiPolygon [ringInA; ringInB]) float_zero
  = Return (Ok (keysWithin ++ ["p/1101"; "p/1101"; "p/1101"; "p/1101"],
                withinABsmall))
  /\ Forall2 (fun p l => loopFromPolygon p = Ok l)
       [ringInA; ringInB] (loops withinABsmall).
Proof.
  assert (Hok : queryTokensGeo QueryTypeWithin
                  (TMultiPolygon [ringInA; ringInB]) float_zero
                = Return (Ok (keysWithin
                                ++ ["p/1101"; "p/1101"; "p/1101"; "p/1101"],
                              withinABsmall))) by reflexivity.
  split; [exact Hok|].
  exact (proj1 (filter_loops_follow_polygons _ _ _ _ _ Hok)).
Defined.

Lemma polygon_query_on_itself_witness :
  loopFromPolygon ringInA = Ok (bounds ringInA)
  /\ exists qw,
       queryTokensGeo QueryTypeWithin (TPolygon ringInA) float_zero
       = Return (Ok (keysWithin, qw))
       /\ MatchesFilter qw (TPolygon ringInA) = Return true.
Proof.
  split; [reflexivity|].
  destruct (@polygon_query_on_itself types lib ringInA (bounds ringInA) _ _
              float_zero eq_refl eq_refl) as (qw & qc & qi & Hq & Hm & _).
  exists qw. split; [exact Hq|exact Hm].
Defined.

(** With a point and loops at once, the polygon is answered by the point
    alone and the multi-polygon made of it by the loops as well. *)
Lemma polygon_and_singleton_differ_example :
  MatchesFilter containsBoth (TPolygon ringAroundA) = Return false
  /\ MatchesFilter containsBoth (TMultiPolygon [ringAroundA]) = Return true.
Proof. split; reflexivity. Qed.

Lemma polygon_as_singleton_multipolygon_witness :
  (pt withinAB = None \/ loops withinAB = [])
  /\ MatchesFilter withinAB (TPolygon ringInB)
     = MatchesFilter withinAB (TMultiPolygon [ringInB])
  /\ MatchesFilter withinAB (TMultiPolygon [ringInB]) = Return true.
Proof.
  assert (Hone : pt withinAB = None \/ loops withinAB = [])
    by (left; reflexivity).
  split; [exact Hone|]. split; [|reflexivity].
  exact (polygon_as_singleton_multipolygon withinAB ringInB Hone).
Defined.

Lemma empty_multipolygon_candidate_witness :
  assertionsHold withinAB = true
  /\ MatchesFilter withinAB (TMultiPolygon []) = Return true
  /\ assertionsHold intersectsA = true
  /\ MatchesFilter intersectsA (TMultiPolygon []) = Return false.
Proof.
  split; [reflexivity|]. split.
  - exact (proj1 (empty_multipolygon_candidate withinAB eq_refl) eq_refl).
  - split; [reflexivity|].
    destruct (empty_multipolygon_candidate intersectsA eq_refl)
      as (_ & _ & _ & Hi).
    exact (Hi eq_refl).
Defined.

Lemma more_filter_loops_witness :
  incl [B] [A; B]
  /\ MatchesFilter (mkGeoQueryData None [B] None QueryTypeWithin)
       (TPolygon ringInB) = Return true
  /\ MatchesFilter withinAB (TPolygon ringInB) = Return true.
Proof.
  assert (Hin : incl [B] [A; B]).
  { intros x [<-|[]]. right; left; reflexivity. }
  split; [exact Hin|]. split; [reflexivity|].
  exact (proj1 (more_filter_loops [B] [A; B] (TPolygon ringInB) Hin) eq_refl).
Defined.

Lemma within_concatenated_multipolygon_witness :
  nonempty (loops withinAB) || notnil (cap withinAB) = true
  /\ exists b b',
       isWithin withinAB (TMultiPolygon [ringInA]) = Return b
       /\ isWithin withinAB (TMultiPolygon [ringOutside; ringInB]) = Return b'
       /\ isWithin withinAB
            (TMultiPolygon ([ringInA] ++ [ringOutside; ringInB]))
          = Return (b && b').
Proof.
  split; [reflexivity|].
  exact (within_concatenated_multipolygon withinAB [ringInA]
           [ringOutside; ringInB] eq_refl).
Defined.

Lemma stored_points : storesPoints stored.
Proof.
  intros v g [<-|[<-|[<-|[]]]] Hg; vm_compute in Hg;
    try discriminate Hg; injection Hg as <-; eexists; reflexivity.
Defined.

Lemma FilterGeoUids_app_witness :
  FilterGeoUids [1; 2; 3]%N stored withinP = Return [1%N]
  /\ FilterGeoUids [7; 8; 9]%N stored withinP = Return [7%N]
  /\ FilterGeoUids ([1; 2; 3] ++ [7; 8; 9])%N (stored ++ stored) withinP
     = Return ([1] ++ [7])%N.
Proof.
  assert (H1 : FilterGeoUids [1; 2; 3]%N stored withinP = Return [1%N])
    by reflexivity.
  assert (H2 : FilterGeoUids [7; 8; 9]%N stored withinP = Return [7%N])
    by reflexivity.
  split; [exact H1|]. split; [exact H2|].
  exact (FilterGeoUids_app _ _ _ _ _ _ _ H1 H2).
Defined.

Lemma filter_matching_nothing_witness :
  knownKind (qtype unknownKind) = false
  /\ MatchesFilter unknownKind (TPolygon ringInA) = Return false
  /\ FilterGeoUids [1; 2; 3]%N stored unknownKind = Return [].
Proof.
  assert (Hq : knownKind (qtype unknownKind) = false
               \/ (qtype unknownKind = QueryTypeNear /\ cap unknownKind = None))
    by (left; reflexivity).
  destruct (filter_matching_nothing unknownKind Hq) as (Hno & Hscan).
  split; [reflexivity|]. split; [apply Hno|].
  apply Hscan. reflexivity.
Defined.

Lemma contains_scan_of_points_witness :
  qtype containsCentre = QueryTypeContains
  /\ assertionsHold containsCentre = true
  /\ storesPoints stored
  /\ FilterGeoUids [1; 2; 3]%N stored containsCentre = Return [].
Proof.
  split; [reflexivity|]. split; [reflexivity|]. split; [exact stored_points|].
  exact (contains_scan_of_points [1; 2; 3]%N stored containsCentre
           eq_refl eq_refl eq_refl stored_points).
Defined.

Lemma intersects_scan_of_points_is_within_witness :
  [P] <> []
  /\ storesPoints stored
  /\ FilterGeoUids [1; 2; 3]%N stored
       (mkGeoQueryData None [P] None QueryTypeIntersects)
     = FilterGeoUids [1; 2; 3]%N stored withinP.
Proof.
  assert (Hne : [P] <> []) by discriminate.
  split; [exact Hne|]. split; [exact stored_points|].
  exact (proj1 (intersects_scan_of_points_is_within [1; 2; 3]%N stored [P]
                  Hne eq_refl stored_points)).
Defined.

End MoreInstances.
